(** * BooksManage: the record service of [main.js], embedded in Rocq

    The service keeps an ordered collection of book records in [book.json]
    and one text file per record in the directory [书籍], named
    [book_<ordinal>.txt].  Every handler of the HTTP server is translated
    below as a function of the request and of the state of the two stores.

    Conventions of the embedding.
    - A JavaScript string is the Rocq [string] of its UTF-8 bytes (the
      encoding of request bodies and of the files on disk).  An unpaired
      surrogate, which a [\u] escape of a JSON text can bring into a
      string, has no UTF-8 encoding; it stands as the three bytes of its
      code point, ED A0 80 to ED BF BF, which no UTF-8 text contains.
    - A number that the service computes with (an index taken from the
      path) is [NaN] or an integer; integers are exact, as they are in
      JavaScript for the safe integers, those strictly between -2^53 and
      2^53.  Beyond them JavaScript rounds, prints in exponent form (from
      10^21) and reads a very long run of digits as [Infinity]; a theorem
      to which this matters states the range it holds in.
    - The file [book.json] is absent, holds a text that does not parse, or
      holds an array, the only kind of value the service writes there; a
      file put there with another JSON value in it is outside the
      embedding.
    - Code that may throw lives in an error monad; code that also reads or
      writes the disk or the console lives in a state-and-error monad in
      which the effects made before a throw remain.
    - A request is handled to its end, callbacks included, before the
      next one starts. *)

From Stdlib Require Import String Ascii ZArith List Bool Lia.
From stdpp Require Import base option list gmap strings pretty.
Import ListNotations.
Local Open Scope string_scope.
Local Open Scope list_scope.
Local Open Scope Z_scope.

(** ** Strings: [trim], [\d], the date pattern *)

Module Str.

(** One-byte white space and line terminators of ECMAScript:
    TAB, LF, VT, FF, CR, SP. *)
Definition ws1 (c : ascii) : bool :=
  let n := nat_of_ascii c in
  ((9 <=? n) && (n <=? 13))%nat || (n =? 32)%nat.

(** Two-byte: U+00A0 (C2 A0). *)
Definition ws2 (c1 c2 : ascii) : bool :=
  ((nat_of_ascii c1 =? 194) && (nat_of_ascii c2 =? 160))%nat.

(** Three-byte: U+1680 (E1 9A 80), U+2000..U+200A (E2 80 80..8A),
    U+2028, U+2029 (E2 80 A8, A9), U+202F (E2 80 AF), U+205F (E2 81 9F),
    U+3000 (E3 80 80), U+FEFF (EF BB BF). *)
Definition ws3 (c1 c2 c3 : ascii) : bool :=
  let a := nat_of_ascii c1 in
  let b := nat_of_ascii c2 in
  let c := nat_of_ascii c3 in
  ((a =? 225) && (b =? 154) && (c =? 128)
   || (a =? 226) && (b =? 128) &&
        ((128 <=? c) && (c <=? 138) || (c =? 168) || (c =? 169) || (c =? 175))
   || (a =? 226) && (b =? 129) && (c =? 159)
   || (a =? 227) && (b =? 128) && (c =? 128)
   || (a =? 239) && (b =? 187) && (c =? 191))%nat.

(** [String.prototype.trimStart]: drop white-space code points from the
    front. *)
Fixpoint trimStart (s : string) : string :=
  match s with
  | EmptyString => s
  | String c1 r1 =>
      if ws1 c1 then trimStart r1
      else match r1 with
           | EmptyString => s
           | String c2 r2 =>
               if ws2 c1 c2 then trimStart r2
               else match r2 with
                    | EmptyString => s
                    | String c3 r3 =>
                        if ws3 c1 c2 c3 then trimStart r3 else s
                    end
           end
  end.

Definition is_empty (s : string) : bool :=
  match s with EmptyString => true | _ => false end.

(** A string made of white space only. *)
Definition blank (s : string) : bool := is_empty (trimStart s).

(** [String.prototype.trimEnd]: the shortest prefix whose remainder is
    white space. *)
Fixpoint trimEnd (s : string) : string :=
  match s with
  | EmptyString => EmptyString
  | String c r => if blank s then EmptyString else String c (trimEnd r)
  end.

(** [String.prototype.trim]. *)
Definition trim (s : string) : string := trimEnd (trimStart s).

(** [\d] of a JavaScript regular expression: an ASCII digit. *)
Definition digit (c : ascii) : bool :=
  let n := nat_of_ascii c in ((48 <=? n) && (n <=? 57))%nat.

Definition hyphen (c : ascii) : bool := (nat_of_ascii c =? 45)%nat.

(** [/^\d{4}-\d{2}-\d{2}$/.test(s)] *)
Definition date_re (s : string) : bool :=
  match list_ascii_of_string s with
  | [y1; y2; y3; y4; h1; m1; m2; h2; d1; d2] =>
      digit y1 && digit y2 && digit y3 && digit y4 && hyphen h1
      && digit m1 && digit m2 && hyphen h2 && digit d1 && digit d2
  | _ => false
  end.

(** [s.startsWith(p)] *)
Definition startsWith (s p : string) : bool := String.prefix p s.

(** [s.split(sep)] for a one-character separator. *)
Fixpoint split (sep : ascii) (s : string) : list string :=
  match s with
  | EmptyString => [EmptyString]
  | String c r =>
      if Ascii.eqb c sep then EmptyString :: split sep r
      else match split sep r with
           | [] => [String c EmptyString]
           | w :: ws => String c w :: ws
           end
  end.

(** A non-empty run of digits, [\d+]. *)
Fixpoint all_digits (s : string) : bool :=
  match s with
  | EmptyString => true
  | String c r => digit c && all_digits r
  end.

Definition digits1 (s : string) : bool := negb (is_empty s) && all_digits s.

(** An unpaired surrogate, U+D800 to U+DFFF: the bytes ED A0..BF 80..BF. *)
Definition surrogate (c1 c2 c3 : ascii) : bool :=
  let a := nat_of_ascii c1 in
  let b := nat_of_ascii c2 in
  let c := nat_of_ascii c3 in
  ((a =? 237) && (160 <=? b) && (b <=? 191) && (128 <=? c) && (c <=? 191))%nat.

(** U+FFFD, the replacement character (EF BF BD), in front of [r]. *)
Definition replacement (r : string) : string :=
  String (ascii_of_nat 239) (String (ascii_of_nat 191)
    (String (ascii_of_nat 189) r)).

(** [String.prototype.toWellFormed]: every unpaired surrogate replaced by
    U+FFFD.  This is what the encoding [utf8] makes of a string. *)
Fixpoint toWellFormed (s : string) : string :=
  match s with
  | EmptyString => EmptyString
  | String c1 r1 =>
      match r1 with
      | String c2 (String c3 r3) =>
          if surrogate c1 c2 c3 then replacement (toWellFormed r3)
          else String c1 (toWellFormed r1)
      | _ => String c1 (toWellFormed r1)
      end
  end.

(** [String.prototype.isWellFormed]: no unpaired surrogate. *)
Fixpoint isWellFormed (s : string) : bool :=
  match s with
  | EmptyString => true
  | String c1 r1 =>
      match r1 with
      | String c2 (String c3 _) => negb (surrogate c1 c2 c3) && isWellFormed r1
      | _ => isWellFormed r1
      end
  end.

End Str.

(** ** Exceptions and the error monad *)

Inductive exn : Set :=
  | ENOENT       (* no such file *)
  | EACCES       (* permission denied *)
  | EISDIR       (* the path is a directory *)
  | SyntaxError  (* JSON.parse *)
  | TypeError.   (* property of null, call of a non-function, bad argument *)

Inductive res (A : Type) : Type :=
  | Ok (a : A)
  | Throw (e : exn).
Arguments Ok {A} a.
Arguments Throw {A} e.

Definition res_bind {A B} (c : res A) (k : A -> res B) : res B :=
  match c with
  | Ok a => k a
  | Throw e => Throw e
  end.

Declare Scope js_scope.
Delimit Scope js_scope with js.
Notation "'do' x <- c ; k" := (res_bind c (fun x => k))
  (at level 10, x name, c at level 100, k at level 200) : js_scope.

(** ** Numbers taken from the path *)

Inductive jsnum : Set :=
  | NaN
  | Int (z : Z).

(** [Number.isSafeInteger]: the integers a double holds exactly, one by
    one. *)
Definition safe (z : Z) : Prop := - 2 ^ 53 < z < 2 ^ 53.

(** [a < b], [a >= b], [a + b]: every comparison with NaN is false.  The
    sum is exact when it is a safe integer or 2^53; from there on
    JavaScript rounds it to a double. *)
Definition js_lt (a b : jsnum) : bool :=
  match a, b with Int x, Int y => x <? y | _, _ => false end.
Definition js_ge (a b : jsnum) : bool :=
  match a, b with Int x, Int y => y <=? x | _, _ => false end.
Definition js_add (a b : jsnum) : jsnum :=
  match a, b with Int x, Int y => Int (x + y) | _, _ => NaN end.

(** Number to string, as a template literal does it: all the digits of
    an integer below 10^21, from where JavaScript prints an exponent. *)
Definition num_to_string (a : jsnum) : string :=
  match a with NaN => "NaN" | Int z => pretty z end.

(** The value of [c] as a digit in [radix], if it is one. *)
Definition digit_val (radix : Z) (c : ascii) : option Z :=
  let n := Z.of_nat (nat_of_ascii c) in
  let v := if (48 <=? n) && (n <=? 57) then n - 48
           else if (97 <=? n) && (n <=? 122) then n - 87
           else if (65 <=? n) && (n <=? 90) then n - 55
           else radix in
  if v <? radix then Some v else None.

(** The longest prefix of digits, read in [radix]; [None] when empty. *)
Fixpoint read_digits (radix : Z) (s : string) (acc : option Z) : option Z :=
  match s with
  | EmptyString => acc
  | String c r =>
      match digit_val radix c with
      | Some d => read_digits radix r (Some (radix * default 0 acc + d))
      | None => acc
      end
  end.

(** An optional sign in front: the factor it stands for and the rest. *)
Definition read_sign (s : string) : Z * string :=
  match s with
  | String "-" r => (-1, r)
  | String "+" r => (1, r)
  | _ => (1, s)
  end.

(** The radix: 16 after a prefix [0x] or [0X], which is dropped, and 10
    otherwise. *)
Definition read_radix (s : string) : Z * string :=
  match s with
  | String "0" (String "x" r) => (16, r)
  | String "0" (String "X" r) => (16, r)
  | _ => (10, s)
  end.

(** [parseInt(s)] with no radix argument: skip white space, read the
    sign, choose the radix, read the longest run of digits; [NaN] when
    there is none.  The number read is exact while it is a safe integer;
    a longer run JavaScript rounds to a double and, from about 309
    digits, reads as [Infinity]. *)
Definition parseInt (s : string) : jsnum :=
  let s := Str.trimStart s in
  let '(sign, s) := read_sign s in
  let '(radix, s) := read_radix s in
  match read_digits radix s None with
  | None => NaN
  | Some m => Int (sign * m)
  end.

(** ** JSON values *)

#[local] Set Warnings "-register-all".

(** What [JSON.parse] returns.  An object is its list of properties (no
    key occurs twice in a parsed object); numbers are integers. *)
Inductive json : Type :=
  | JNull
  | JBool (b : bool)
  | JNum (n : Z)
  | JStr (s : string)
  | JArr (l : list json)
  | JObj (kvs : list (string * json)).

(** A JavaScript value read from a property: [None] is [undefined]. *)
Definition jsval : Type := option json.

Fixpoint assoc (k : string) (kvs : list (string * json)) : jsval :=
  match kvs with
  | [] => None
  | (k', v) :: r => if String.eqb k k' then Some v else assoc k r
  end.

(** [v.k] for a property name [k] that no prototype defines and that is
    not an array index ([book], [author], [summary], [subDate],
    [content]): it throws on [null], is the own property of an object and
    [undefined] on anything else. *)
Definition getProp (v : json) (k : string) : res jsval :=
  match v with
  | JNull => Throw TypeError
  | JObj kvs => Ok (assoc k kvs)
  | _ => Ok None
  end.

(** Truthiness: [undefined], [null], [false], [0] and [''] are falsy. *)
Definition truthy (v : jsval) : bool :=
  match v with
  | None | Some JNull | Some (JBool false) | Some (JNum 0)
  | Some (JStr EmptyString) => false
  | _ => true
  end.

(** [ToString] on a parsed JSON value.  An array joins its elements with
    commas ([null] elements print as nothing); a plain object prints as
    [[object Object]] unless an own property shadows [toString], in which
    case no conversion method is callable. *)
Fixpoint ToString (v : json) : res string :=
  match v with
  | JNull => Ok "null"
  | JBool true => Ok "true"
  | JBool false => Ok "false"
  | JNum n => Ok (pretty n)
  | JStr s => Ok s
  | JArr l =>
      (fix join (l : list json) : res string :=
         match l with
         | [] => Ok ""
         | x :: r =>
             let elem := match x with JNull => Ok "" | _ => ToString x end in
             match r with
             | [] => elem
             | _ => res_bind elem (fun s =>
                    res_bind (join r) (fun t => Ok (s +:+ "," +:+ t)))
             end
         end) l
  | JObj kvs =>
      match assoc "toString" kvs with
      | Some _ => Throw TypeError
      | None => Ok "[object Object]"
      end
  end.

(** ** The validator *)

Definition msg_book : string := "书籍名称不能为空".
Definition msg_author : string := "作者名不能为空".
Definition msg_summary : string := "书籍简介不能为空".
Definition msg_subDate : string := "发布日期格式不正确，应为YYYY-MM-DD".

(** [!v || v.trim() === ''] *)
Definition empty_text (v : jsval) : res bool :=
  if negb (truthy v) then Ok true
  else match v with
       | Some (JStr s) => Ok (Str.is_empty (Str.trim s))
       | _ => Throw TypeError   (* [trim] is not a function *)
       end.

(** [!v || !/^\d{4}-\d{2}-\d{2}$/.test(v)] *)
Definition bad_date (v : jsval) : res bool :=
  if negb (truthy v) then Ok true
  else match v with
       | Some j => res_bind (ToString j) (fun s => Ok (negb (Str.date_re s)))
       | None => Ok true
       end.

(** [errors.push(m)] when [c] holds. *)
Definition push_if (c : bool) (m : string) (errors : list string) : list string :=
  if c then errors ++ [m] else errors.

Definition validateBookData (data : json) : res (list string) :=
  (let errors := [] in
   do book <- getProp data "book";
   do c <- empty_text book;
   let errors := push_if c msg_book errors in
   do author <- getProp data "author";
   do c <- empty_text author;
   let errors := push_if c msg_author errors in
   do summary <- getProp data "summary";
   do c <- empty_text summary;
   let errors := push_if c msg_summary errors in
   do subDate <- getProp data "subDate";
   do c <- bad_date subDate;
   let errors := push_if c msg_subDate errors in
   Ok errors)%js.

Definition book_of (b a s d : string) : json :=
  JObj [("book", JStr b); ("author", JStr a); ("summary", JStr s);
        ("subDate", JStr d)].

(** ** The disk and the console *)

(** A text, seen through [JSON.parse]: [Doc v] is a text that parses to
    [v] (what [JSON.stringify v] writes), [Garbled] one that does not
    parse. *)
Inductive text (A : Type) : Type :=
  | Garbled
  | Doc (v : A).
Arguments Garbled {A}.
Arguments Doc {A} v.

Definition JSON_parse {A} (t : text A) : res A :=
  match t with
  | Garbled => Throw SyntaxError
  | Doc v => Ok v
  end.

Definition JSON_stringify {A} (v : A) : text A := Doc v.

(** An entry of the directory [BOOK_DIR]: a text file, with the text that
    reading it with encoding [utf8] gives, or something that exists but
    is no file (a directory). *)
Inductive entry : Type :=
  | File (content : string)
  | Dir.

(** The state the handlers act on.
    - [book_json]: the file [BOOK_JSON_PATH], absent or holding a text;
      a text that parses holds an array, the only kind of value
      [writeBooks] is called with.
    - [json_ro]: writing [BOOK_JSON_PATH] fails.
    - [book_dir]: the entries of [BOOK_DIR], by file name.
    - [dir_ro]: creating, overwriting and removing entries of [BOOK_DIR]
      fail.
    - [console]: what [console.error] has printed, oldest first. *)
Record world : Type := World {
  book_json : option (text (list json));
  json_ro : bool;
  book_dir : gmap string entry;
  dir_ro : bool;
  console : list (string * exn)
}.

Definition set_book_json (t : text (list json)) (w : world) : world :=
  World (Some t) (json_ro w) (book_dir w) (dir_ro w) (console w).
Definition set_book_dir (m : gmap string entry) (w : world) : world :=
  World (book_json w) (json_ro w) m (dir_ro w) (console w).
Definition add_console (l : string * exn) (w : world) : world :=
  World (book_json w) (json_ro w) (book_dir w) (dir_ro w) (console w ++ [l]).

(** ** The state-and-error monad *)

Definition M (A : Type) : Type := world -> res A * world.

Definition ret {A} (a : A) : M A := fun w => (Ok a, w).

Definition bind {A B} (c : M A) (k : A -> M B) : M B :=
  fun w =>
    match c w with
    | (Ok a, w') => k a w'
    | (Throw e, w') => (Throw e, w')
    end.

Definition lift {A} (r : res A) : M A := fun w => (r, w).

(** [try { c } catch (error) { h error }] *)
Definition try_catch {A} (c : M A) (h : exn -> M A) : M A :=
  fun w =>
    match c w with
    | (Ok a, w') => (Ok a, w')
    | (Throw e, w') => h e w'
    end.

(** The outcome of an asynchronous call, as its callback receives it:
    [(err, data)]. *)
Definition callback {A} (c : M A) : M (res A) :=
  fun w => let '(r, w') := c w in (Ok r, w').

Notation "'run' x <- c ; k" := (bind c (fun x => k))
  (at level 10, x name, c at level 100, k at level 200) : js_scope.
Notation "'exec' c ; k" := (bind c (fun _ => k))
  (at level 10, c at level 100, k at level 200) : js_scope.

Definition console_error (msg : string) (error : exn) : M unit :=
  fun w => (Ok tt, add_console (msg, error) w).

(** [fs] on [BOOK_JSON_PATH]. *)
Definition readFileSync_json : M (text (list json)) :=
  fun w =>
    match book_json w with
    | None => (Throw ENOENT, w)
    | Some t => (Ok t, w)
    end.

Definition writeFileSync_json (t : text (list json)) : M unit :=
  fun w =>
    if json_ro w then (Throw EACCES, w) else (Ok tt, set_book_json t w).

(** [fs] on [path.join(BOOK_DIR, name)]. *)
Definition existsSync (name : string) : M bool :=
  fun w => (Ok (bool_decide (is_Some (book_dir w !! name))), w).

Definition readFileSync (name : string) : M string :=
  fun w =>
    match book_dir w !! name with
    | None => (Throw ENOENT, w)
    | Some Dir => (Throw EISDIR, w)
    | Some (File s) => (Ok s, w)
    end.

(** Writing encodes the string as UTF-8, in which an unpaired surrogate
    becomes U+FFFD. *)
Definition writeFileSync (name : string) (data : string) : M unit :=
  fun w =>
    if dir_ro w then (Throw EACCES, w)
    else match book_dir w !! name with
         | Some Dir => (Throw EISDIR, w)
         | _ => (Ok tt, set_book_dir
                          (<[name := File (Str.toWellFormed data)]> (book_dir w)) w)
         end.

Definition unlinkSync (name : string) : M unit :=
  fun w =>
    if dir_ro w then (Throw EACCES, w)
    else match book_dir w !! name with
         | None => (Throw ENOENT, w)
         | Some Dir => (Throw EISDIR, w)
         | Some (File _) => (Ok tt, set_book_dir (delete name (book_dir w)) w)
         end.

(** The asynchronous calls do what the synchronous ones do and hand the
    outcome to their callback. *)
Definition readFile (name : string) : M (res string) :=
  callback (readFileSync name).

Definition writeFile (name : string) (data : string) : M (res unit) :=
  callback (writeFileSync name data).

(** [fs.writeFile] accepts a string (or a buffer, which JSON cannot
    produce) as data and throws a [TypeError] on anything else. *)
Definition file_data (v : json) : res string :=
  match v with
  | JStr s => Ok s
  | _ => Throw TypeError
  end.

(** ** The record store *)

Definition readBooks : M (list json) :=
  try_catch
    (run data <- readFileSync_json;
     lift (JSON_parse data))%js
    (fun error =>
       exec console_error "读取书籍数据失败:" error;
       ret [])%js.

Definition writeBooks (books : list json) : M bool :=
  try_catch
    (exec writeFileSync_json (JSON_stringify books);
     ret true)%js
    (fun error =>
       exec console_error "写入书籍数据失败:" error;
       ret false)%js.

(** ** Arrays *)

Definition len (l : list json) : jsnum := Int (Z.of_nat (length l)).

Definition ToIntegerOrInfinity (n : jsnum) : Z :=
  match n with NaN => 0 | Int z => z end.

(** [l.splice(start, deleteCount)]: the removed elements and the array
    that remains. *)
Definition splice (start : jsnum) (deleteCount : Z) (l : list json)
  : list json * list json :=
  let n := Z.of_nat (length l) in
  let rel := ToIntegerOrInfinity start in
  let actualStart := if rel <? 0 then Z.max (n + rel) 0 else Z.min rel n in
  let count := Z.min (Z.max deleteCount 0) (n - actualStart) in
  let a := Z.to_nat actualStart in
  let c := Z.to_nat count in
  (take c (drop a l), take a l ++ drop (a + c) l).

(** [l[i] = v], as far as [JSON.stringify] later sees it: an index within
    the array replaces, one past the end extends (holes print as
    [null]), and [NaN] or a negative number names a property that is not
    an element. *)
Definition array_set (i : jsnum) (v : json) (l : list json) : list json :=
  match i with
  | NaN => l
  | Int z =>
      if z <? 0 then l
      else if z <? Z.of_nat (length l) then <[Z.to_nat z := v]> l
      else l ++ replicate (Z.to_nat z - length l) JNull ++ [v]
  end.

(** ** Replies *)

(** What the server answers: a status with a JSON body (the object given
    to [JSON.stringify]), a status alone, or a static file, which is the
    business of the transport layer. *)
Inductive reply : Type :=
  | Reply (status : Z) (body : json)
  | Bare (status : Z)
  | Static (pathname : string).

(** An object literal as [JSON.stringify] prints it: a property whose
    value is [undefined] is left out. *)
Definition object (props : list (string * jsval)) : json :=
  JObj (omap (fun p => match snd p with Some v => Some (fst p, v) | None => None end) props).

Definition errors_reply (errors : list string) : reply :=
  Reply 400 (JObj [("success", JBool false); ("errors", JArr (map JStr errors))]).
Definition failure (status : Z) (message : string) : reply :=
  Reply status (JObj [("success", JBool false); ("message", JStr message)]).
Definition success_data (status : Z) (message : string) (data : jsval) : reply :=
  Reply status (object [("success", Some (JBool true));
                        ("message", Some (JStr message)); ("data", data)]).
Definition content_reply (mode content : string) : reply :=
  Reply 200 (JObj [("success", JBool true); ("mode", JStr mode);
                   ("content", JStr content)]).

(** [path.join(BOOK_DIR, `book_${n}.txt`)], as a name in [BOOK_DIR]. *)
Definition bookFilePath (n : jsnum) : string :=
  "book_" +:+ num_to_string n +:+ ".txt".

(** ** The handlers *)

Definition invalid_json : reply := failure 400 "无效的JSON格式".
Definition not_found : reply := failure 404 "书籍不存在".

(** [POST /api/books] *)
Definition createBook (body : text json) : M reply :=
  try_catch
    (run newBook <- lift (JSON_parse body);
     run errors <- lift (validateBookData newBook);
     if (0 <? length errors)%nat then ret (errors_reply errors)
     else
       run books <- readBooks;
       let books := books ++ [newBook] in
       run ok <- writeBooks books;
       if ok then
         let bookIndex := len books in
         exec writeFileSync (bookFilePath bookIndex)
                            ("This is book NO." +:+ num_to_string bookIndex);
         ret (success_data 201 "书籍添加成功" (Some newBook))
       else ret (failure 500 "保存失败"))%js
    (fun error => ret invalid_json).

(** [DELETE /api/books/:index] *)
Definition deleteBook (index : jsnum) : M reply :=
  (run books <- readBooks;
   if js_lt index (Int 0) || js_ge index (len books) then ret not_found
   else
     let '(removed, books) := splice index 1 books in
     let deletedBook := head removed in
     run ok <- writeBooks books;
     if ok then
       let bookFilePath := bookFilePath (js_add index (Int 1)) in
       run there <- existsSync bookFilePath;
       exec (if there then unlinkSync bookFilePath else ret tt);
       ret (success_data 200 "书籍删除成功" deletedBook)
     else ret (failure 500 "删除失败"))%js.

(** [PUT /api/books/:index] *)
Definition updateBook (index : jsnum) (body : text json) : M reply :=
  try_catch
    (run updatedBook <- lift (JSON_parse body);
     run errors <- lift (validateBookData updatedBook);
     if (0 <? length errors)%nat then ret (errors_reply errors)
     else
       run books <- readBooks;
       if js_lt index (Int 0) || js_ge index (len books) then ret not_found
       else
         let books := array_set index updatedBook books in
         run ok <- writeBooks books;
         if ok then ret (success_data 200 "书籍更新成功" (Some updatedBook))
         else ret (failure 500 "更新失败"))%js
    (fun error => ret invalid_json).

(** [GET /api/books] *)
Definition listBooks : M reply :=
  (run books <- readBooks;
   ret (Reply 200 (JObj [("success", JBool true); ("data", JArr books)])))%js.

(** [GET /api/books/:index/content?mode=sync|async]; [query_mode] is
    [query.mode], [None] when the query has no such parameter. *)
Definition readContent (index : jsnum) (query_mode : option string) : M reply :=
  let mode :=
    match query_mode with
    | Some m => if Str.is_empty m then "async" else m
    | None => "async"
    end in
  let bookFilePath := bookFilePath (js_add index (Int 1)) in
  if String.eqb mode "sync" then
    try_catch
      (run there <- existsSync bookFilePath;
       if negb there then ret (failure 404 "书籍文件不存在")
       else
         run content <- readFileSync bookFilePath;
         ret (content_reply "sync" content))%js
      (fun error => ret (failure 500 "读取失败"))
  else
    (run r <- readFile bookFilePath;
     match r with
     | Throw err => ret (failure 404 "书籍文件不存在或读取失败")
     | Ok data => ret (content_reply "async" data)
     end)%js.

(** [POST /api/books/:index/content] *)
Definition writeContent (index : jsnum) (body : text json) : M reply :=
  let bookFilePath := bookFilePath (js_add index (Int 1)) in
  try_catch
    (run parsed <- lift (JSON_parse body);
     run content <- lift (getProp parsed "content");
     if negb (truthy content) then ret (failure 400 "内容不能为空")
     else
       run data <- lift (match content with
                         | Some v => file_data v
                         | None => Throw TypeError
                         end);
       run r <- writeFile bookFilePath data;
       match r with
       | Throw err => ret (failure 500 "写入失败")
       | Ok _ => ret (Reply 200 (JObj [("success", JBool true);
                                      ("message", JStr "内容写入成功")]))
       end)%js
    (fun error => ret invalid_json).

(** ** The router *)

Record request : Type := Request {
  method : string;
  pathname : string;
  query_mode : option string;
  body : text json
}.

(** [pathname.match(/^\/api\/books\/\d+\/content$/)] *)
Definition content_path (pathname : string) : bool :=
  match Str.split "/" pathname with
  | [s0; s1; s2; ds; s4] =>
      String.eqb s0 "" && String.eqb s1 "api" && String.eqb s2 "books"
      && Str.digits1 ds && String.eqb s4 "content"
  | _ => false
  end.

(** [parseInt(pathname.split('/')[3])]; a missing segment is
    [undefined], which [parseInt] reads as the string "undefined". *)
Definition path_index (pathname : string) : jsnum :=
  parseInt (nth 3 (Str.split "/" pathname) "undefined").

(** The request listener.  A [Throw] is an exception that no handler
    catches. *)
Definition server (req : request) : M reply :=
  let pathname := pathname req in
  if String.eqb (method req) "OPTIONS" then ret (Bare 200)
  else if negb (Str.startsWith pathname "/api/") then ret (Static pathname)
  else if String.eqb pathname "/api/books" && String.eqb (method req) "POST"
  then createBook (body req)
  else if Str.startsWith pathname "/api/books/" && String.eqb (method req) "DELETE"
  then deleteBook (path_index pathname)
  else if Str.startsWith pathname "/api/books/" && String.eqb (method req) "PUT"
  then updateBook (path_index pathname) (body req)
  else if String.eqb pathname "/api/books" && String.eqb (method req) "GET"
  then listBooks
  else if content_path pathname && String.eqb (method req) "GET"
  then readContent (path_index pathname) (query_mode req)
  else if content_path pathname && String.eqb (method req) "POST"
  then writeContent (path_index pathname) (body req)
  else ret (failure 404 "接口不存在").

(** ** What the specification says, in its own words *)

(** The collection as [listAll] shows it: the array in [book.json], the
    empty collection when the file is missing or does not parse. *)
Definition collection (w : world) : list json :=
  match book_json w with
  | Some (Doc l) => l
  | _ => []
  end.

(** [0 <= position < collection.length] *)
Definition in_range (z : Z) (books : list json) : Prop :=
  0 <= z < Z.of_nat (length books).

(** A field of a candidate record: the string under key [k], if there is
    one. *)
Definition field (data : json) (k : string) : option string :=
  match data with
  | JObj kvs => match assoc k kvs with Some (JStr s) => Some s | _ => None end
  | _ => None
  end.

Definition nonempty_after_trim (f : option string) : bool :=
  match f with
  | Some s => negb (Str.is_empty (Str.trim s))
  | None => false
  end.

Definition matches_date (f : option string) : bool :=
  match f with
  | Some s => Str.date_re s
  | None => false
  end.

(** The four rules in the order of the specification, each with its
    message: title, author, summary, publication date. *)
Definition rules : list (string * (json -> bool)) :=
  [ (msg_book, fun d => nonempty_after_trim (field d "book"));
    (msg_author, fun d => nonempty_after_trim (field d "author"));
    (msg_summary, fun d => nonempty_after_trim (field d "summary"));
    (msg_subDate, fun d => matches_date (field d "subDate")) ].

(** One message per violated rule, in rule order. *)
Definition violations (data : json) : list string :=
  map fst (List.filter (fun r => negb (snd r data)) rules).

(** A candidate record: a parsed value other than [null], each of whose
    four fields is absent, [null] or a string. *)
Definition textual (v : jsval) : bool :=
  match v with
  | None | Some JNull | Some (JStr _) => true
  | _ => false
  end.

Definition prop (data : json) (k : string) : jsval :=
  match data with JObj kvs => assoc k kvs | _ => None end.

Definition candidate (data : json) : bool :=
  match data with
  | JNull => false
  | _ => forallb (fun k => textual (prop data k))
                 ["book"; "author"; "summary"; "subDate"]
  end.

(** The keys of a record. *)
Definition keys (data : json) : list string :=
  match data with JObj kvs => map fst kvs | _ => [] end.

(** The status of an answer, if there is one: 404 is NotFound. *)
Definition status_of (r : res reply) : option Z :=
  match r with
  | Ok (Reply s _) | Ok (Bare s) => Some s
  | _ => None
  end.

(** The answer to a content write that succeeded. *)
Definition write_ok : reply :=
  Reply 200 (JObj [("success", JBool true); ("message", JStr "内容写入成功")]).

(** The mode a content read really uses: blocking only when asked for
    [sync], non-blocking otherwise. *)
Definition mode_used (query_mode : option string) : string :=
  match query_mode with
  | Some m => if String.eqb m "sync" then "sync" else "async"
  | None => "async"
  end.

(** The placeholder text of the record with 1-based ordinal [n]. *)
Definition placeholder (n : nat) : string :=
  "This is book NO." +:+ pretty (Z.of_nat n).

(** The disk after reading the collection: nothing but the console can
    have changed. *)
Definition after_read (w : world) : world :=
  match book_json w with
  | None => add_console ("读取书籍数据失败:", ENOENT) w
  | Some Garbled => add_console ("读取书籍数据失败:", SyntaxError) w
  | Some (Doc _) => w
  end.

(** A disk that works, as far as one blob is concerned: [unlinkSync]
    has nothing to remove or can remove it; [writeFile] can write it. *)
Definition removable (name : string) (w : world) : bool :=
  match book_dir w !! name with
  | None => true
  | Some (File _) => negb (dir_ro w)
  | Some Dir => false
  end.

Definition writable (name : string) (w : world) : bool :=
  negb (dir_ro w) &&
  match book_dir w !! name with Some Dir => false | _ => true end.

(** [l.join(sep)] for a one-character separator, the inverse of
    [split]. *)
Fixpoint join (sep : ascii) (l : list string) : string :=
  match l with
  | [] => ""
  | [s] => s
  | s :: r => s +:+ String sep (join sep r)
  end.

(** ** Running the service on small disks *)

(** White space beyond ASCII, by its UTF-8 bytes: U+00A0, U+3000, U+FEFF
    and U+2028. *)
Definition utf8 (bytes : list nat) : string :=
  string_of_list_ascii (map ascii_of_nat bytes).
Definition nbsp : string := utf8 [194; 160]%nat.
Definition wide_space : string := utf8 [227; 128; 128]%nat.
Definition bom : string := utf8 [239; 187; 191]%nat.
Definition line_sep : string := utf8 [226; 128; 168]%nat.

(** An unpaired surrogate, U+D800, as the escape [\ud800] of a JSON text
    gives it, and the replacement character U+FFFD. *)
Definition lone_surrogate : string := utf8 [237; 160; 128]%nat.
Definition replacement_char : string := utf8 [239; 191; 189]%nat.

Definition bookA : json := book_of "A" "B" "C" "2024-01-01".
Definition bookB : json := book_of "B" "B" "B" "2024-02-02".

(** A record under the key names of the specification, and one with a key
    the validator does not know. *)
Definition spec_keys_book : json :=
  JObj [("title", JStr "A"); ("author", JStr "B"); ("summary", JStr "C");
        ("publishDate", JStr "2024-01-01")].
Definition book_with_isbn : json :=
  JObj [("book", JStr "A"); ("author", JStr "B"); ("summary", JStr "C");
        ("subDate", JStr "2024-01-01"); ("isbn", JNum 42)].

Definition run_all (reqs : list request) (w : world) : list (res reply) * world :=
  fold_left (fun acc r => let '(out, w') := server r (snd acc) in
                          (fst acc ++ [out], w'))
            reqs ([], w).

Definition POST_book (b : json) : request := Request "POST" "/api/books" None (Doc b).
Definition DELETE_at (seg : string) : request :=
  Request "DELETE" ("/api/books/" +:+ seg) None Garbled.
Definition GET_content (seg : string) (mode : option string) : request :=
  Request "GET" ("/api/books/" +:+ seg +:+ "/content") mode Garbled.
Definition POST_content (seg : string) (c : string) : request :=
  Request "POST" ("/api/books/" +:+ seg +:+ "/content") None
          (Doc (JObj [("content", JStr c)])).

(** No [book.json], an empty blob directory. *)
Definition empty_disk : world := World None false ∅ false [].

(** A [book.json] that does not parse and cannot be written. *)
Definition garbled_disk : world := World (Some Garbled) true ∅ false [].

(** Three records with their blobs. *)
Definition three_books : world :=
  World (Some (Doc [bookA; bookB; bookA])) false
        (list_to_map [("book_1.txt", File "one"); ("book_2.txt", File "two");
                      ("book_3.txt", File "three")])
        false [].


(** Disks on which one of the two stores refuses writes. *)
Definition readonly_dir : world := World (Some (Doc [bookA])) false ∅ true [].
Definition readonly_json : world := World (Some (Doc [bookA])) true ∅ false [].

(** A disk whose blob directory refuses writes while a blob is there. *)
Definition stuck_blob : world :=
  World (Some (Doc [bookA])) false {["book_1.txt" := File "one"]} true [].

(** ** The front end: the requests [scripts.js] sends *)

Module UI.

(** [`${API_BASE}/books/${index}`], as the path the server sees; [index]
    is the position [displayBooks] gave the record. *)
Definition book_url (index : Z) : string :=
  "/api/books/" +:+ num_to_string (Int index).

(** [formData] of the add and of the edit form: the values of the four
    inputs. *)
Definition formData (book author summary subDate : string) : json :=
  JObj [("book", JStr book); ("author", JStr author);
        ("summary", JStr summary); ("subDate", JStr subDate)].

(** The submit listener of [addBookForm]. *)
Definition addBook (book author summary subDate : string) : request :=
  Request "POST" "/api/books" None
          (JSON_stringify (formData book author summary subDate)).

(** The submit listener of [editBookForm]. *)
Definition editBook (index : Z) (book author summary subDate : string)
  : request :=
  Request "PUT" (book_url index) None
          (JSON_stringify (formData book author summary subDate)).

(** [deleteBook(index)]: no request unless the user confirms; the
    request has no body. *)
Definition deleteBook (index : Z) (confirmed : bool) : option request :=
  if negb confirmed then None
  else Some (Request "DELETE" (book_url index) None Garbled).

(** [writeContent()]: no request when the text is blank after
    [trim]. *)
Definition writeContent (currentBookIndex : Z) (content : string)
  : option request :=
  if Str.is_empty (Str.trim content) then None
  else Some (Request "POST" (book_url currentBookIndex +:+ "/content") None
                     (JSON_stringify (JObj [("content", JStr content)]))).

End UI.

(** ** Further vocabulary *)

(** The uniform shape of an answer: a JSON body is an object with a
    boolean [success], true exactly at status 200 and 201; the status is
    one of 200, 201, 400, 404, 500; a failure carries a [message] or a
    list of [errors]. *)
Definition envelope (r : reply) : bool :=
  match r with
  | Reply status (JObj kvs) =>
      match assoc "success" kvs with
      | Some (JBool ok) =>
          Bool.eqb ok ((status =? 200) || (status =? 201))
          && existsb (Z.eqb status) [200; 201; 400; 404; 500]
          && (ok || bool_decide (is_Some (assoc "message" kvs))
                 || bool_decide (is_Some (assoc "errors" kvs)))
      | _ => false
      end
  | Reply _ _ => false
  | Bare status => status =? 200
  | Static _ => true
  end.

(** The two stores of a disk. *)
Definition stores (w : world) : option (text (list json)) * gmap string entry :=
  (book_json w, book_dir w).

(** The blob name of the record at position [i]. *)
Definition blob_of (i : nat) : string := bookFilePath (Int (Z.of_nat i + 1)).

(** Every record has a blob file under the name of its position. *)
Definition aligned (w : world) : Prop :=
  forall i, (i < length (collection w))%nat ->
            exists s, book_dir w !! blob_of i = Some (File s).

(** A text field that makes the validator throw: a value that is truthy
    and no string. *)
Definition not_trimmable (v : jsval) : bool :=
  truthy v && match v with Some (JStr _) => false | _ => true end.

(** A string without the character [sep]. *)
Fixpoint lacks (sep : ascii) (s : string) : bool :=
  match s with
  | EmptyString => true
  | String c r => negb (Ascii.eqb c sep) && lacks sep r
  end.

(** A disk with an entry that is no file. *)
Definition dir_at_1 : world :=
  World (Some (Doc [bookA])) false {["book_1.txt" := Dir]} false [].

(** * Theorems *)

(** ** The definitions at work *)

Example trim_ex1 : Str.trim "  a b " = "a b".
Proof. reflexivity. Qed.

(** A no-break space, an ideographic space, a byte order mark and a line
    separator are white space too. *)
Example trim_ex2 :
  Str.trim (nbsp +:+ wide_space +:+ "A" +:+ wide_space +:+ "B" +:+ bom +:+ line_sep)
  = "A" +:+ wide_space +:+ "B".
Proof. reflexivity. Qed.

Example trim_ex3 : Str.blank (" " +:+ line_sep +:+ wide_space +:+ nbsp) = true.
Proof. reflexivity. Qed.

Example date_ex1 : Str.date_re "2024-13-99" = true.
Proof. reflexivity. Qed.

Example split_ex1 : Str.split "/" "/api/books/abc" = [""; "api"; "books"; "abc"].
Proof. reflexivity. Qed.

Example parseInt_ex1 : parseInt "12" = Int 12.
Proof. reflexivity. Qed.

Example parseInt_ex2 : parseInt "abc" = NaN.
Proof. reflexivity. Qed.

Example parseInt_ex3 : parseInt "-1" = Int (-1).
Proof. reflexivity. Qed.

Example parseInt_ex4 : parseInt "7up" = Int 7.
Proof. reflexivity. Qed.

Example parseInt_ex5 : parseInt "" = NaN.
Proof. reflexivity. Qed.

Example parseInt_ex6 : parseInt "0x1f" = Int 31.
Proof. reflexivity. Qed.

Example ToString_ex1 : ToString (JArr [JStr "2024-01-01"]) = Ok "2024-01-01".
Proof. reflexivity. Qed.

Example ToString_ex2 : ToString (JArr [JNum 1; JNull; JNum (-2)]) = Ok "1,,-2".
Proof. reflexivity. Qed.

Example validate_ex1 : validateBookData (book_of "A" "B" "C" "2024-13-99") = Ok [].
Proof. reflexivity. Qed.

Example validate_ex2 :
  validateBookData (JObj [("author", JStr "  "); ("subDate", JStr "2024-1-1")])
  = Ok [msg_book; msg_author; msg_summary; msg_subDate].
Proof. reflexivity. Qed.

Example validate_ex3 :
  validateBookData (JObj [("book", JNum 5)]) = Throw TypeError.
Proof. reflexivity. Qed.

Example splice_ex1 :
  splice (Int 1) 1 [JNum 10; JNum 11; JNum 12] = ([JNum 11], [JNum 10; JNum 12]).
Proof. reflexivity. Qed.

Example splice_ex2 :
  splice NaN 1 [JNum 10; JNum 11] = ([JNum 10], [JNum 11]).
Proof. reflexivity. Qed.

Example splice_ex3 : splice NaN 1 [] = ([], []).
Proof. reflexivity. Qed.

Example bookFilePath_ex1 : bookFilePath (js_add (Int 0) (Int 1)) = "book_1.txt".
Proof. reflexivity. Qed.

Example bookFilePath_ex2 : bookFilePath (js_add NaN (Int 1)) = "book_NaN.txt".
Proof. reflexivity. Qed.

Example array_set_ex1 :
  array_set (Int 3) (JNum 9) [JNum 1] = [JNum 1; JNull; JNull; JNum 9].
Proof. reflexivity. Qed.

Example run_ex1 :
  run_all [POST_book bookA; POST_book bookB; DELETE_at "0"; GET_content "1" None]
          empty_disk
  = ([Ok (success_data 201 "书籍添加成功" (Some bookA));
      Ok (success_data 201 "书籍添加成功" (Some bookB));
      Ok (success_data 200 "书籍删除成功" (Some bookA));
      Ok (content_reply "async" "This is book NO.2")],
     World (Some (Doc [bookB])) false {["book_2.txt" := File "This is book NO.2"]}
           false [("读取书籍数据失败:", ENOENT)]).
Proof. vm_compute. reflexivity. Qed.

(** ** Basic facts *)

(** Read the status of an explicit reply. *)
Ltac statuses :=
  unfold success_data, failure, errors_reply, content_reply, not_found,
    invalid_json, write_ok;
  cbv beta iota; cbn [status_of fst].

(** Reduce the projections of an explicit [World]. *)
Ltac fields :=
  cbn [book_json json_ro book_dir dir_ro console
       set_book_json set_book_dir add_console js_add fst snd].

Lemma readBooks_spec w : readBooks w = (Ok (collection w), after_read w).
Proof.
  unfold readBooks, try_catch, bind, readFileSync_json, collection, after_read.
  destruct (book_json w) as [[|l]|]; reflexivity.
Qed.

Lemma after_read_book_json w : book_json (after_read w) = book_json w.
Proof.
  unfold after_read. destruct (book_json w) as [[|l]|] eqn:E; simpl; congruence.
Qed.

Lemma after_read_json_ro w : json_ro (after_read w) = json_ro w.
Proof. unfold after_read. destruct (book_json w) as [[|l]|]; reflexivity. Qed.

Lemma after_read_book_dir w : book_dir (after_read w) = book_dir w.
Proof. unfold after_read. destruct (book_json w) as [[|l]|]; reflexivity. Qed.

Lemma after_read_dir_ro w : dir_ro (after_read w) = dir_ro w.
Proof. unfold after_read. destruct (book_json w) as [[|l]|]; reflexivity. Qed.

Lemma writeBooks_ok books w :
  json_ro w = false ->
  writeBooks books w = (Ok true, set_book_json (Doc books) w).
Proof.
  intros H. unfold writeBooks, try_catch, bind, writeFileSync_json.
  rewrite H. reflexivity.
Qed.

Lemma writeBooks_fail books w :
  json_ro w = true ->
  writeBooks books w = (Ok false, add_console ("写入书籍数据失败:", EACCES) w).
Proof.
  intros H. unfold writeBooks, try_catch, bind, writeFileSync_json.
  rewrite H. reflexivity.
Qed.

(** ** Claims *)

(** C8. [readBooks], when [book.json] is missing or does not parse,
    returns the empty collection and prints the failure with
    [console.error] instead of throwing, so that the service goes on with
    an empty set ([listBooks] answers 200 with no records); it never
    throws on any disk.  [writeBooks] never throws either: when the write
    fails it prints the failure and returns [false]. *)
Theorem readBooks_writeBooks_never_throw :
  (forall w, book_json w = None \/ book_json w = Some Garbled ->
     (exists e, readBooks w = (Ok [], add_console ("读取书籍数据失败:", e) w))
     /\ fst (listBooks w)
        = Ok (Reply 200 (JObj [("success", JBool true); ("data", JArr [])])))
  /\ (forall w, exists books w', readBooks w = (Ok books, w'))
  /\ (forall books w, json_ro w = true ->
        writeBooks books w
        = (Ok false, add_console ("写入书籍数据失败:", EACCES) w))
  /\ (forall books w, exists b w',
        writeBooks books w = (Ok b, w')
        /\ (b = true -> book_json w' = Some (Doc books))
        /\ (b = false -> book_json w' = book_json w)).
Proof.
  split; [|split; [|split]].
  - intros w H. split.
    + rewrite readBooks_spec. unfold collection, after_read.
      destruct H as [H|H]; rewrite H; eauto.
    + unfold listBooks, bind. rewrite readBooks_spec. unfold collection.
      destruct H as [H|H]; rewrite H; reflexivity.
  - intros w. rewrite readBooks_spec. eauto.
  - intros books w H. apply writeBooks_fail, H.
  - intros books w. destruct (json_ro w) eqn:E.
    + rewrite (writeBooks_fail _ _ E). do 2 eexists. split; [reflexivity|].
      split; [discriminate|reflexivity].
    + rewrite (writeBooks_ok _ _ E). do 2 eexists. split; [reflexivity|].
      split; [reflexivity|discriminate].
Qed.

Lemma readBooks_writeBooks_never_throw_witness :
  ((exists e, readBooks garbled_disk
              = (Ok [], add_console ("读取书籍数据失败:", e) garbled_disk))
   /\ fst (listBooks garbled_disk)
      = Ok (Reply 200 (JObj [("success", JBool true); ("data", JArr [])])))
  /\ writeBooks [bookA] garbled_disk
     = (Ok false, add_console ("写入书籍数据失败:", EACCES) garbled_disk).
Proof.
  split.
  - apply (proj1 readBooks_writeBooks_never_throw garbled_disk).
    right. reflexivity.
  - apply (proj1 (proj2 (proj2 readBooks_writeBooks_never_throw))).
    reflexivity.
Defined.

(** *** [trim] *)

Lemma trimStart_cases s :
  Str.trimStart s = s
  \/ exists r, (String.length r < String.length s)%nat
                /\ Str.trimStart s = Str.trimStart r.
Proof.
  destruct s as [|c1 r1]; [now left|]. simpl.
  destruct (Str.ws1 c1); [right; exists r1; simpl; split; [lia|reflexivity]|].
  destruct r1 as [|c2 r2]; [now left|].
  destruct (Str.ws2 c1 c2); [right; exists r2; simpl; split; [lia|reflexivity]|].
  destruct r2 as [|c3 r3]; [now left|].
  destruct (Str.ws3 c1 c2 c3); [right; exists r3; simpl; split; [lia|reflexivity]|].
  now left.
Qed.

Lemma trimStart_idem s : Str.trimStart (Str.trimStart s) = Str.trimStart s.
Proof.
  remember (String.length s) as n eqn:Hn. revert s Hn.
  induction n as [n IH] using lt_wf_ind. intros s ->.
  destruct (trimStart_cases s) as [H|(r & Hlt & H)]; rewrite H.
  - exact H.
  - exact (IH _ Hlt r eq_refl).
Qed.

Lemma trimEnd_empty s : Str.is_empty (Str.trimEnd s) = Str.blank s.
Proof.
  destruct s as [|c r]; [reflexivity|]. cbn [Str.trimEnd].
  destruct (Str.blank (String c r)); reflexivity.
Qed.

(** A string is empty after [trim] exactly when it is all white space. *)
Lemma trim_empty_blank s : Str.is_empty (Str.trim s) = Str.blank s.
Proof.
  unfold Str.trim. rewrite trimEnd_empty. unfold Str.blank.
  now rewrite trimStart_idem.
Qed.

(** *** The validator *)

Lemma empty_text_textual v :
  textual v = true ->
  empty_text v
  = Ok (negb (nonempty_after_trim
                (match v with Some (JStr s) => Some s | _ => None end))).
Proof.
  destruct v as [[| | |s| |]|]; try discriminate; intros _; try reflexivity.
  destruct s; [reflexivity|].
  unfold empty_text, nonempty_after_trim. simpl truthy. simpl negb at 1.
  cbv iota. now rewrite negb_involutive.
Qed.

Lemma bad_date_textual v :
  textual v = true ->
  bad_date v
  = Ok (negb (matches_date
                (match v with Some (JStr s) => Some s | _ => None end))).
Proof.
  destruct v as [[| | |s| |]|]; try discriminate; intros _; try reflexivity.
  destruct s; reflexivity.
Qed.

Lemma getProp_prop data k : data <> JNull -> getProp data k = Ok (prop data k).
Proof. destruct data; try reflexivity. congruence. Qed.

Lemma field_prop data k :
  field data k = match prop data k with Some (JStr s) => Some s | _ => None end.
Proof. destruct data; reflexivity. Qed.

(** C3. On every candidate record, [validateBookData] returns one message
    for each violated rule and no other, in the order title ([book]),
    author, summary, publication date ([subDate]), and it goes on after
    the first failure: a record that violates all four rules gets all
    four messages.  The text fields must be non-empty after [trim]; the
    date must match [\d{4}-\d{2}-\d{2}] and nothing more, so that
    2024-13-99 is no violation. *)
Theorem validate_all_violations_in_order :
  (forall data, candidate data = true ->
     validateBookData data = Ok (violations data))
  /\ (forall data, candidate data = true ->
        nonempty_after_trim (field data "book") = false ->
        nonempty_after_trim (field data "author") = false ->
        nonempty_after_trim (field data "summary") = false ->
        matches_date (field data "subDate") = false ->
        validateBookData data
        = Ok [msg_book; msg_author; msg_summary; msg_subDate])
  /\ (forall b a s,
        candidate (book_of b a s "2024-13-99") = true
        /\ ~ In msg_subDate (violations (book_of b a s "2024-13-99"))).
Proof.
  assert (Hall : forall data, candidate data = true ->
                   validateBookData data = Ok (violations data)).
  { intros data Hc.
    assert (Hn : data <> JNull) by (destruct data; [discriminate|congruence..]).
    assert (Ht : forallb (fun k => textual (prop data k))
                         ["book"; "author"; "summary"; "subDate"] = true)
      by (destruct data; [discriminate|exact Hc..]).
    simpl in Ht. rewrite !andb_true_iff in Ht.
    destruct Ht as (Hb & Ha & Hs & Hd & _).
    unfold validateBookData.
    rewrite !(getProp_prop _ _ Hn). simpl res_bind.
    rewrite (empty_text_textual _ Hb). simpl res_bind.
    rewrite (empty_text_textual _ Ha). simpl res_bind.
    rewrite (empty_text_textual _ Hs). simpl res_bind.
    rewrite (bad_date_textual _ Hd). simpl res_bind.
    unfold violations, rules. simpl List.filter.
    rewrite !field_prop.
    repeat match goal with
           | |- context [nonempty_after_trim ?x] =>
               destruct (nonempty_after_trim x)
           | |- context [matches_date ?x] => destruct (matches_date x)
           end; reflexivity. }
  split; [exact Hall|]. split.
  - intros data Hc Hb Ha Hs Hd. rewrite (Hall _ Hc).
    unfold violations, rules. simpl List.filter.
    rewrite Hb, Ha, Hs, Hd. reflexivity.
  - intros b a s. split; [reflexivity|].
    unfold violations, rules, book_of. simpl.
    repeat match goal with
           | |- context [Str.is_empty ?x] => destruct (Str.is_empty x)
           end; simpl; intuition discriminate.
Qed.

Lemma validate_all_violations_in_order_witness :
  validateBookData (JObj [("book", JStr "A"); ("author", JStr "  ")])
  = Ok (violations (JObj [("book", JStr "A"); ("author", JStr "  ")]))
  /\ validateBookData (JObj [("author", JStr "  "); ("subDate", JStr "2024-1-1")])
     = Ok [msg_book; msg_author; msg_summary; msg_subDate].
Proof.
  destruct validate_all_violations_in_order as (Hall & Hfour & _).
  split.
  - apply Hall. reflexivity.
  - apply Hfour; reflexivity.
Defined.

(** *** Bounds and arrays *)

Lemma bounds_in z l :
  in_range z l -> js_lt (Int z) (Int 0) || js_ge (Int z) (len l) = false.
Proof.
  unfold in_range, js_lt, js_ge, len. intros H.
  destruct (Z.ltb_spec z 0), (Z.leb_spec (Z.of_nat (length l)) z);
    simpl; try reflexivity; lia.
Qed.

Lemma bounds_out z l :
  ~ in_range z l -> js_lt (Int z) (Int 0) || js_ge (Int z) (len l) = true.
Proof.
  unfold in_range, js_lt, js_ge, len. intros H.
  destruct (Z.ltb_spec z 0), (Z.leb_spec (Z.of_nat (length l)) z);
    simpl; try reflexivity; lia.
Qed.

Lemma bounds_NaN l : js_lt NaN (Int 0) || js_ge NaN (len l) = false.
Proof. reflexivity. Qed.

Lemma splice_in_range z (l : list json) :
  in_range z l ->
  splice (Int z) 1 l = (take 1 (drop (Z.to_nat z) l), delete (Z.to_nat z) l).
Proof.
  unfold in_range, splice. intros H. simpl ToIntegerOrInfinity.
  destruct (Z.ltb_spec z 0) as [?|_]; [lia|].
  replace (Z.min z (Z.of_nat (length l))) with z by lia.
  replace (Z.min (Z.max 1 0) (Z.of_nat (length l) - z)) with 1 by lia.
  rewrite delete_take_drop. do 3 f_equal. simpl. lia.
Qed.

Lemma splice_NaN (l : list json) : splice NaN 1 l = splice (Int 0) 1 l.
Proof. reflexivity. Qed.

Lemma head_take_drop (l : list json) n : head (take 1 (drop n l)) = l !! n.
Proof.
  rewrite head_lookup, lookup_take_lt by lia.
  rewrite lookup_drop. f_equal. lia.
Qed.

Lemma in_range_stored z w :
  in_range z (collection w) -> book_json w = Some (Doc (collection w)).
Proof.
  unfold in_range, collection.
  destruct (book_json w) as [[|l]|]; simpl; intros; try lia; reflexivity.
Qed.

Lemma stored_after_read w l : book_json w = Some (Doc l) -> after_read w = w.
Proof. unfold after_read. intros ->. reflexivity. Qed.

(** *** Delete *)

(** In range and with a disk that works, [deleteBook] persists the
    collection without the record at [z] and unlinks the blob named after
    [z + 1], if there is one. *)
Lemma deleteBook_in_range z w :
  in_range z (collection w) ->
  json_ro w = false ->
  removable (bookFilePath (Int (z + 1))) w = true ->
  deleteBook (Int z) w
  = (Ok (success_data 200 "书籍删除成功" (collection w !! Z.to_nat z)),
     set_book_dir (delete (bookFilePath (Int (z + 1))) (book_dir w))
       (set_book_json (Doc (delete (Z.to_nat z) (collection w))) w)).
Proof.
  intros Hin Hro Hrm.
  pose proof (in_range_stored _ _ Hin) as Hst.
  unfold deleteBook, bind at 1. rewrite readBooks_spec.
  rewrite (stored_after_read _ _ Hst), (bounds_in _ _ Hin).
  rewrite (splice_in_range _ _ Hin), head_take_drop.
  unfold bind at 1. rewrite (writeBooks_ok _ _ Hro).
  unfold bind, existsSync, unlinkSync, ret. fields.
  unfold removable in Hrm.
  destruct (book_dir w !! bookFilePath (Int (z + 1))) as [[s|]|] eqn:E.
  - rewrite bool_decide_eq_true_2 by eauto. fields. rewrite E.
    apply negb_true_iff in Hrm. rewrite Hrm. reflexivity.
  - discriminate.
  - rewrite bool_decide_eq_false_2 by (intros [? ?]; discriminate).
    rewrite (delete_id _ _ E). reflexivity.
Qed.

(** C2. For a position [z] in range (and a disk that accepts the writes),
    [deleteBook] removes exactly the record at [z]: the collection it
    persists, which [listBooks] then shows, is one shorter, keeps the
    records before [z] and moves each later one down by one; the only
    blob it removes is the one named after the ordinal [z + 1] the record
    had before, and every other entry of the blob directory stays as it
    was. *)
Theorem delete_removes_record_and_its_blob (z : Z) (w : world) :
  in_range z (collection w) ->
  json_ro w = false ->
  removable (bookFilePath (Int (z + 1))) w = true ->
  exists w',
    deleteBook (Int z) w
    = (Ok (success_data 200 "书籍删除成功" (collection w !! Z.to_nat z)), w')
    /\ is_Some (collection w !! Z.to_nat z)
    /\ book_json w' = Some (Doc (delete (Z.to_nat z) (collection w)))
    /\ fst (listBooks w')
       = Ok (Reply 200 (JObj [("success", JBool true);
                              ("data", JArr (collection w'))]))
    /\ (length (collection w') + 1 = length (collection w))%nat
    /\ (forall i, (i < Z.to_nat z)%nat -> collection w' !! i = collection w !! i)
    /\ (forall i, (Z.to_nat z <= i)%nat ->
                  collection w' !! i = collection w !! S i)
    /\ book_dir w' = delete (bookFilePath (Int (z + 1))) (book_dir w)
    /\ (forall name, name <> bookFilePath (Int (z + 1)) ->
                     book_dir w' !! name = book_dir w !! name).
Proof.
  intros Hin Hro Hrm. eexists. split; [apply deleteBook_in_range; assumption|].
  assert (Hsome : is_Some (collection w !! Z.to_nat z)).
  { apply lookup_lt_is_Some. unfold in_range in Hin. lia. }
  split; [exact Hsome|]. split; [reflexivity|].
  split; [unfold listBooks, bind; rewrite readBooks_spec; reflexivity|].
  replace (collection (set_book_dir (delete (bookFilePath (Int (z + 1))) (book_dir w))
       (set_book_json (Doc (delete (Z.to_nat z) (collection w))) w)))
    with (delete (Z.to_nat z) (collection w)) by reflexivity.
  fields.
  split; [|split; [|split; [|split]]].
  - rewrite length_delete by exact Hsome.
    apply lookup_lt_is_Some in Hsome. lia.
  - intros i Hi. apply list_lookup_delete_lt, Hi.
  - intros i Hi. apply list_lookup_delete_ge, Hi.
  - reflexivity.
  - intros name Hne. apply lookup_delete_ne. congruence.
Qed.

Lemma delete_removes_record_and_its_blob_witness :
  exists w',
    deleteBook (Int 1) three_books
    = (Ok (success_data 200 "书籍删除成功" (Some bookB)), w')
    /\ collection w' = [bookA; bookA]
    /\ book_dir w' !! "book_1.txt" = Some (File "one")
    /\ book_dir w' !! "book_2.txt" = None
    /\ book_dir w' !! "book_3.txt" = Some (File "three").
Proof.
  destruct (delete_removes_record_and_its_blob 1 three_books)
    as (w' & Hrun & _ & Hjson & _ & _ & _ & _ & Hdir & Hother).
  - unfold in_range. simpl. lia.
  - reflexivity.
  - vm_compute. reflexivity.
  - exists w'. split; [exact Hrun|]. split.
    + unfold collection. rewrite Hjson. reflexivity.
    + rewrite Hdir. vm_compute. repeat split.
Defined.

(** After the deletion the record that moved down to position 1 has no
    blob under its new name, and its old blob answers at position 2. *)
Example delete_shifts_records_not_blobs :
  fst (run_all [DELETE_at "1"; GET_content "1" (Some "sync");
                GET_content "2" (Some "sync")] three_books)
  = [Ok (success_data 200 "书籍删除成功" (Some bookB));
     Ok (failure 404 "书籍文件不存在");
     Ok (content_reply "sync" "three")].
Proof. vm_compute. reflexivity. Qed.

(** When the blob cannot be unlinked the exception escapes the handler,
    after the shortened collection was persisted. *)
Example delete_unlink_failure_escapes :
  deleteBook (Int 0) stuck_blob = (Throw EACCES, set_book_json (Doc []) stuck_blob).
Proof. vm_compute. reflexivity. Qed.

(** *** Routing *)

Lemma prefix_app (a b s : string) :
  String.prefix (a +:+ b) s = true -> String.prefix a s = true.
Proof.
  revert s. induction a as [|c a IH]; intros s; [destruct s; reflexivity|].
  destruct s as [|c' s]; simpl; [intros; discriminate|].
  destruct (ascii_dec c c'); [apply IH|intros; discriminate].
Qed.

Lemma route_DELETE req :
  method req = "DELETE" ->
  Str.startsWith (pathname req) "/api/books/" = true ->
  server req = deleteBook (path_index (pathname req)).
Proof.
  intros Hm Hp. unfold server. rewrite Hm, Hp.
  unfold Str.startsWith in *.
  rewrite (prefix_app "/api/" "books/" _ Hp). simpl.
  rewrite andb_false_r. reflexivity.
Qed.

Lemma route_PUT req :
  method req = "PUT" ->
  Str.startsWith (pathname req) "/api/books/" = true ->
  server req = updateBook (path_index (pathname req)) (body req).
Proof.
  intros Hm Hp. unfold server. rewrite Hm, Hp.
  unfold Str.startsWith in *.
  rewrite (prefix_app "/api/" "books/" _ Hp). simpl.
  rewrite andb_false_r. reflexivity.
Qed.

(** *** A delete request whose index is not a number *)

Lemma deleteBook_NaN_writes w first rest :
  collection w = first :: rest ->
  json_ro w = false ->
  deleteBook NaN w
  = bind (existsSync "book_NaN.txt") (fun there =>
      bind (if there then unlinkSync "book_NaN.txt" else ret tt) (fun _ =>
        ret (success_data 200 "书籍删除成功" (Some first))))
      (set_book_json (Doc rest) w).
Proof.
  intros Hc Hro.
  assert (Hst : book_json w = Some (Doc (first :: rest))).
  { unfold collection in Hc. destruct (book_json w) as [[|l]|];
      try discriminate. now subst. }
  unfold deleteBook, bind at 1. rewrite readBooks_spec.
  rewrite (stored_after_read _ _ Hst), Hc, bounds_NaN.
  replace (splice NaN 1 (first :: rest)) with ([first], rest).
  2:{ rewrite splice_NaN.
      rewrite (splice_in_range 0 (first :: rest))
        by (unfold in_range; simpl; lia).
      reflexivity. }
  unfold bind at 1. rewrite (writeBooks_ok _ _ Hro). reflexivity.
Qed.

(** C10. On a non-empty collection, a DELETE request whose index segment
    [parseInt] reads as [NaN] (as in [/api/books/abc]) is never answered
    NotFound: [NaN] passes both comparisons of the bounds check and
    [splice(NaN, 1)] removes the record at position 0; when the disk
    accepts the write, the shortened collection is persisted and the
    request is answered with status 200, the message of a successful
    delete and, as its data, the record that was first. *)
Theorem delete_NaN_removes_first (req : request) (w : world)
    (first : json) (rest : list json) :
  method req = "DELETE" ->
  Str.startsWith (pathname req) "/api/books/" = true ->
  path_index (pathname req) = NaN ->
  collection w = first :: rest ->
  status_of (fst (server req w)) <> Some 404
  /\ js_lt NaN (Int 0) || js_ge NaN (len (collection w)) = false
  /\ splice NaN 1 (collection w) = ([first], rest)
  /\ (json_ro w = false -> removable "book_NaN.txt" w = true ->
      server req w
      = (Ok (Reply 200 (JObj [("success", JBool true);
                              ("message", JStr "书籍删除成功");
                              ("data", first)])),
         set_book_dir (delete "book_NaN.txt" (book_dir w))
           (set_book_json (Doc rest) w))).
Proof.
  intros Hm Hp Hi Hc. rewrite (route_DELETE _ Hm Hp), Hi.
  assert (Hsp : splice NaN 1 (first :: rest) = ([first], rest)).
  { rewrite splice_NaN.
    rewrite (splice_in_range 0 (first :: rest))
      by (unfold in_range; simpl; lia).
    reflexivity. }
  split; [|split; [reflexivity|split; [rewrite Hc; exact Hsp|]]].
  - destruct (json_ro w) eqn:Hro.
    + assert (Hst : book_json w = Some (Doc (first :: rest))).
      { unfold collection in Hc. destruct (book_json w) as [[|l]|];
          try discriminate. now subst. }
      unfold deleteBook, bind at 1. rewrite readBooks_spec.
      rewrite (stored_after_read _ _ Hst), Hc, bounds_NaN, Hsp.
      unfold bind. rewrite (writeBooks_fail _ _ Hro). simpl. discriminate.
    + rewrite (deleteBook_NaN_writes _ _ _ Hc Hro).
      unfold bind, existsSync, unlinkSync, ret. fields.
      destruct (book_dir w !! "book_NaN.txt") as [[s|]|] eqn:E.
      * rewrite bool_decide_eq_true_2 by eauto. fields. rewrite E.
        destruct (dir_ro w); simpl; discriminate.
      * rewrite bool_decide_eq_true_2 by eauto. fields. rewrite E.
        destruct (dir_ro w); simpl; discriminate.
      * rewrite bool_decide_eq_false_2 by (intros [? ?]; discriminate).
        simpl. discriminate.
  - intros Hro Hrm. rewrite (deleteBook_NaN_writes _ _ _ Hc Hro).
    unfold bind, existsSync, unlinkSync, ret. fields.
    unfold removable in Hrm.
    destruct (book_dir w !! "book_NaN.txt") as [[s|]|] eqn:E.
    + rewrite bool_decide_eq_true_2 by eauto. fields. rewrite E.
      apply negb_true_iff in Hrm. rewrite Hrm. reflexivity.
    + discriminate.
    + rewrite bool_decide_eq_false_2 by (intros [? ?]; discriminate).
      rewrite (delete_id _ _ E). reflexivity.
Qed.

Lemma delete_NaN_removes_first_witness :
  server (DELETE_at "abc") three_books
  = (Ok (Reply 200 (JObj [("success", JBool true);
                          ("message", JStr "书籍删除成功");
                          ("data", bookA)])),
     set_book_dir (delete "book_NaN.txt" (book_dir three_books))
       (set_book_json (Doc [bookB; bookA]) three_books)).
Proof.
  apply (delete_NaN_removes_first (DELETE_at "abc") three_books
           bookA [bookB; bookA]); reflexivity.
Defined.

(** *** Update *)

Lemma array_set_in_range z v (l : list json) :
  in_range z l -> array_set (Int z) v l = <[Z.to_nat z := v]> l.
Proof.
  unfold in_range, array_set. intros H.
  destruct (Z.ltb_spec z 0); [lia|].
  destruct (Z.ltb_spec z (Z.of_nat (length l))); [reflexivity|lia].
Qed.

Lemma updateBook_invalid index data errs w :
  validateBookData data = Ok errs -> errs <> [] ->
  updateBook index (Doc data) w = (Ok (errors_reply errs), w).
Proof.
  intros Hv Hne. unfold updateBook, try_catch, bind, lift, JSON_parse.
  cbv beta iota. rewrite Hv. destruct errs; [congruence|reflexivity].
Qed.

Lemma updateBook_valid index data w :
  validateBookData data = Ok [] ->
  updateBook index (Doc data) w
  = if js_lt index (Int 0) || js_ge index (len (collection w))
    then (Ok not_found, after_read w)
    else if json_ro w
         then (Ok (failure 500 "更新失败"),
               add_console ("写入书籍数据失败:", EACCES) (after_read w))
         else (Ok (success_data 200 "书籍更新成功" (Some data)),
               set_book_json (Doc (array_set index data (collection w)))
                             (after_read w)).
Proof.
  intros Hv. unfold updateBook, try_catch, bind, lift, JSON_parse.
  cbv beta iota. rewrite Hv. simpl. rewrite readBooks_spec.
  destruct (js_lt index (Int 0) || js_ge index (len (collection w)));
    [reflexivity|].
  destruct (json_ro w) eqn:Hro.
  - rewrite writeBooks_fail by (now rewrite after_read_json_ro). reflexivity.
  - rewrite writeBooks_ok by (now rewrite after_read_json_ro). reflexivity.
Qed.

(** C4. [updateBook] validates before it checks the bounds.  A candidate
    that fails validation is answered with status 400 and the whole list
    of violations, one string per violation in the validator's order, at
    any index and so at every out-of-range position, and that answer is
    not NotFound.  A candidate that passes is answered NotFound, status
    404 with the message of the handler, at every out-of-range position.
    A candidate that passes at a position in range replaces that record
    in place in the persisted collection and is answered with status 200
    and the new record, the blob directory staying as it was. *)
Theorem update_validates_before_bounds
    (index : jsnum) (z : Z) (data : json) (w : world) :
  let NotFound :=
    Reply 404 (JObj [("success", JBool false); ("message", JStr "书籍不存在")]) in
  (forall errs, validateBookData data = Ok errs -> errs <> [] ->
     updateBook index (Doc data) w
     = (Ok (Reply 400 (JObj [("success", JBool false);
                             ("errors", JArr (map JStr errs))])), w)
     /\ Reply 400 (JObj [("success", JBool false);
                         ("errors", JArr (map JStr errs))]) <> NotFound)
  /\ (validateBookData data = Ok [] -> ~ in_range z (collection w) ->
      updateBook (Int z) (Doc data) w = (Ok NotFound, after_read w))
  /\ (validateBookData data = Ok [] -> in_range z (collection w) ->
      json_ro w = false ->
      exists w',
        updateBook (Int z) (Doc data) w
        = (Ok (Reply 200 (JObj [("success", JBool true);
                                ("message", JStr "书籍更新成功");
                                ("data", data)])), w')
        /\ collection w' = <[Z.to_nat z := data]> (collection w)
        /\ collection w' !! Z.to_nat z = Some data
        /\ length (collection w') = length (collection w)
        /\ (forall i, i <> Z.to_nat z -> collection w' !! i = collection w !! i)
        /\ book_dir w' = book_dir w).
Proof.
  cbv zeta. split; [|split].
  - intros errs Hv Hne. split; [|congruence].
    rewrite (updateBook_invalid _ _ _ _ Hv Hne). reflexivity.
  - intros Hv Hout. rewrite (updateBook_valid _ _ _ Hv).
    rewrite (bounds_out _ _ Hout). reflexivity.
  - intros Hv Hin Hro. rewrite (updateBook_valid _ _ _ Hv).
    rewrite (bounds_in _ _ Hin), Hro, (array_set_in_range _ _ _ Hin).
    rewrite (stored_after_read _ _ (in_range_stored _ _ Hin)).
    eexists. split; [reflexivity|].
    replace (collection (set_book_json
                           (Doc (<[Z.to_nat z := data]> (collection w))) w))
      with (<[Z.to_nat z := data]> (collection w)) by reflexivity.
    split; [reflexivity|]. split; [|split; [|split]].
    + apply list_lookup_insert_eq. unfold in_range in Hin. lia.
    + apply length_insert.
    + intros i Hi. apply list_lookup_insert_ne. congruence.
    + reflexivity.
Qed.

Lemma update_validates_before_bounds_witness :
  updateBook (Int 7) (Doc (JObj [("book", JStr "A")])) three_books
  = (Ok (Reply 400 (JObj [("success", JBool false);
                          ("errors", JArr [JStr msg_author; JStr msg_summary;
                                           JStr msg_subDate])])),
     three_books)
  /\ updateBook (Int 7) (Doc bookB) three_books
     = (Ok (Reply 404 (JObj [("success", JBool false);
                             ("message", JStr "书籍不存在")])),
        after_read three_books)
  /\ exists w',
       updateBook (Int 2) (Doc bookB) three_books
       = (Ok (Reply 200 (JObj [("success", JBool true);
                               ("message", JStr "书籍更新成功");
                               ("data", bookB)])), w')
       /\ collection w' = [bookA; bookB; bookB]
       /\ book_dir w' = book_dir three_books.
Proof.
  split; [|split].
  - apply (proj1 (update_validates_before_bounds
                    (Int 7) 7 (JObj [("book", JStr "A")]) three_books)
             [msg_author; msg_summary; msg_subDate]).
    + reflexivity.
    + discriminate.
  - apply (proj1 (proj2 (update_validates_before_bounds
                           (Int 7) 7 bookB three_books))).
    + reflexivity.
    + unfold in_range. simpl. lia.
  - destruct (proj2 (proj2 (update_validates_before_bounds
                              (Int 2) 2 bookB three_books)))
      as (w' & Hrun & Hcol & _ & _ & _ & Hdir).
    + reflexivity.
    + unfold in_range. simpl. lia.
    + reflexivity.
    + exists w'. split; [exact Hrun|]. split; [exact Hcol|exact Hdir].
Defined.

(** *** Text as the encoding utf8 writes it *)

Lemma surrogate_lead c1 c2 c3 :
  (nat_of_ascii c1 =? 237)%nat = false -> Str.surrogate c1 c2 c3 = false.
Proof. intros H. unfold Str.surrogate. cbv zeta. now rewrite H. Qed.

Lemma isWellFormed_cons c r :
  (nat_of_ascii c =? 237)%nat = false ->
  Str.isWellFormed (String c r) = Str.isWellFormed r.
Proof.
  intros H. destruct r as [|c2 [|c3 r3]]; try reflexivity.
  cbn [Str.isWellFormed]. now rewrite (surrogate_lead _ _ _ H).
Qed.

(** A well-formed string is written as it is. *)
Lemma toWellFormed_id s : Str.isWellFormed s = true -> Str.toWellFormed s = s.
Proof.
  induction s as [|c1 r1 IH]; [reflexivity|].
  destruct r1 as [|c2 [|c3 r3]].
  - reflexivity.
  - reflexivity.
  - cbn [Str.isWellFormed Str.toWellFormed]. intros H.
    apply andb_true_iff in H as [Hs Hr].
    apply negb_true_iff in Hs. rewrite Hs. f_equal. apply IH. exact Hr.
Qed.

Lemma digit_cases c :
  Str.digit c = true ->
  In c ["0"; "1"; "2"; "3"; "4"; "5"; "6"; "7"; "8"; "9"]%char.
Proof.
  destruct c as [[] [] [] [] [] [] [] []]; intros H;
    try discriminate H; simpl; tauto.
Qed.

Ltac digit_case H :=
  apply digit_cases in H; simpl in H;
  repeat (destruct H as [H|H]; [subst|]); [..|contradiction].

Lemma all_digits_wf ds :
  Str.all_digits ds = true -> Str.isWellFormed ds = true.
Proof.
  induction ds as [|c ds IH]; [reflexivity|].
  cbn [Str.all_digits]. intros H. apply andb_true_iff in H as [Hc Hd].
  rewrite isWellFormed_cons; [now apply IH|].
  digit_case Hc; reflexivity.
Qed.

Lemma blank_wf s : Str.blank s = true -> Str.isWellFormed s = true.
Proof.
  remember (String.length s) as n eqn:Hn. revert s Hn.
  induction n as [n IH] using lt_wf_ind. intros s ->. unfold Str.blank.
  destruct s as [|c1 r1]; [reflexivity|]. cbn [Str.trimStart].
  destruct (Str.ws1 c1) eqn:E1.
  { intros H. rewrite isWellFormed_cons.
    - apply (IH (String.length r1)); [simpl; lia|reflexivity|exact H].
    - unfold Str.ws1 in E1. cbv zeta in E1.
      destruct (Nat.eqb_spec (nat_of_ascii c1) 237) as [e|]; [|reflexivity].
      rewrite e in E1. discriminate E1. }
  destruct r1 as [|c2 r2]; [discriminate|].
  destruct (Str.ws2 c1 c2) eqn:E2.
  { intros H. unfold Str.ws2 in E2. apply andb_true_iff in E2 as [Ea Eb].
    apply Nat.eqb_eq in Ea, Eb.
    rewrite !isWellFormed_cons by (rewrite ?Ea, ?Eb; reflexivity).
    apply (IH (String.length r2)); [simpl; lia|reflexivity|exact H]. }
  destruct r2 as [|c3 r3]; [discriminate|].
  destruct (Str.ws3 c1 c2 c3) eqn:E3; [|discriminate].
  intros H.
  assert (Hl : (nat_of_ascii c1 =? 237)%nat = false
               /\ (nat_of_ascii c2 =? 237)%nat = false
               /\ (nat_of_ascii c3 =? 237)%nat = false).
  { unfold Str.ws3 in E3. cbv zeta in E3.
    rewrite ?orb_true_iff, ?andb_true_iff in E3.
    rewrite ?orb_true_iff, ?andb_true_iff, ?Nat.eqb_eq, ?Nat.leb_le in E3.
    repeat split; apply Nat.eqb_neq; lia. }
  destruct Hl as (H1 & H2 & H3).
  rewrite !isWellFormed_cons by assumption.
  apply (IH (String.length r3)); [simpl; lia|reflexivity|exact H].
Qed.

Lemma N_digit_cases d :
  (d < 10)%N ->
  d = 0%N \/ d = 1%N \/ d = 2%N \/ d = 3%N \/ d = 4%N \/ d = 5%N
  \/ d = 6%N \/ d = 7%N \/ d = 8%N \/ d = 9%N.
Proof. lia. Qed.

Lemma digit_val_pretty d :
  (d < 10)%N ->
  digit_val 10 (pretty_N_char d) = Some (Z.of_N d)
  /\ Str.digit (pretty_N_char d) = true.
Proof.
  intros H. apply N_digit_cases in H.
  repeat (destruct H as [->|H]); subst; split; reflexivity.
Qed.

Lemma all_digits_pretty_go x :
  forall s, Str.all_digits s = true -> Str.is_empty s = false \/ (0 < x)%N ->
            Str.all_digits (pretty_N_go x s) = true
            /\ Str.is_empty (pretty_N_go x s) = false.
Proof.
  induction (N.lt_wf_0 x) as [x _ IH]. intros s Hs Hne.
  destruct (decide (0 < x)%N) as [Hx|Hx].
  - rewrite pretty_N_go_step by exact Hx.
    assert (Hmod : (x `mod` 10 < 10)%N) by (apply N.mod_lt; lia).
    destruct (digit_val_pretty _ Hmod) as [_ Hdig].
    apply IH.
    + apply N.div_lt; lia.
    + simpl. now rewrite Hdig, Hs.
    + left. reflexivity.
  - assert (x = 0%N) as -> by lia. rewrite pretty_N_go_0.
    destruct Hne as [Hne|Hne]; [auto|lia].
Qed.

Lemma index_digits (n : nat) :
  Str.digits1 (num_to_string (Int (Z.of_nat n))) = true.
Proof.
  unfold num_to_string. destruct (Z.of_nat n) as [|p|p] eqn:E; [reflexivity| |lia].
  change (pretty (Zpos p)) with (pretty_N_go (Npos p) "").
  destruct (all_digits_pretty_go (Npos p) "") as [Hd Hne];
    [reflexivity|right; lia|].
  unfold Str.digits1. now rewrite Hd, Hne.
Qed.

(** The placeholder text is made of ASCII characters. *)
Lemma placeholder_wf n : Str.toWellFormed (placeholder n) = placeholder n.
Proof.
  apply toWellFormed_id. unfold placeholder.
  change ("This is book NO." +:+ pretty (Z.of_nat n))
    with (String "T" (String "h" (String "i" (String "s" (String " "
          (String "i" (String "s" (String " " (String "b" (String "o"
          (String "o" (String "k" (String " " (String "N" (String "O"
          (String "." (pretty (Z.of_nat n)))))))))))))))))).
  rewrite !isWellFormed_cons by reflexivity.
  apply all_digits_wf. pose proof (index_digits n) as H.
  unfold Str.digits1 in H. now apply andb_true_iff in H.
Qed.

(** *** Content *)

Lemma readContent_absent index mode w :
  book_dir w !! bookFilePath (js_add index (Int 1)) = None ->
  exists msg, readContent index mode w = (Ok (failure 404 msg), w).
Proof.
  intros E. unfold readContent.
  destruct (String.eqb _ "sync").
  - eexists. unfold try_catch, bind, existsSync. cbv beta.
    rewrite E, bool_decide_eq_false_2 by (intros [? ?]; discriminate).
    reflexivity.
  - eexists. unfold bind, readFile, callback, readFileSync. cbv beta. rewrite E.
    reflexivity.
Qed.

Lemma mode_used_sync mode :
  String.eqb match mode with
             | Some m => if Str.is_empty m then "async" else m
             | None => "async"
             end "sync"
  = String.eqb (mode_used mode) "sync".
Proof.
  destruct mode as [m|]; [|reflexivity]. unfold mode_used.
  destruct (String.eqb_spec m "sync") as [->|Hne]; [reflexivity|].
  destruct m as [|c m]; [reflexivity|]. simpl Str.is_empty. cbv iota.
  now apply String.eqb_neq.
Qed.

Lemma mode_used_cases mode : mode_used mode = "sync" \/ mode_used mode = "async".
Proof.
  unfold mode_used. destruct mode as [m|]; [|now right].
  destruct (String.eqb m "sync"); [now left|now right].
Qed.

Lemma readContent_file index mode w s :
  book_dir w !! bookFilePath (js_add index (Int 1)) = Some (File s) ->
  readContent index mode w = (Ok (content_reply (mode_used mode) s), w).
Proof.
  intros E. unfold readContent. rewrite mode_used_sync.
  destruct (mode_used_cases mode) as [-> | ->].
  - change (String.eqb "sync" "sync") with true. cbv iota.
    unfold try_catch, bind, existsSync, readFileSync. cbv beta.
    rewrite E, bool_decide_eq_true_2 by eauto. cbn [negb].
    rewrite E. reflexivity.
  - change (String.eqb "async" "sync") with false. cbv iota.
    unfold bind, readFile, callback, readFileSync. cbv beta. rewrite E. reflexivity.
Qed.

Lemma writeContent_string index kvs s w :
  assoc "content" kvs = Some (JStr s) -> s <> "" ->
  writeContent index (Doc (JObj kvs)) w
  = if writable (bookFilePath (js_add index (Int 1))) w
    then (Ok write_ok,
          set_book_dir (<[bookFilePath (js_add index (Int 1))
                          := File (Str.toWellFormed s)]> (book_dir w)) w)
    else (Ok (failure 500 "写入失败"), w).
Proof.
  intros Hc Hs. unfold writeContent, try_catch, bind, lift, JSON_parse, getProp.
  cbv beta iota. rewrite Hc.
  destruct s as [|c s]; [congruence|]. cbn [truthy negb file_data].
  unfold writeFile, callback, writeFileSync, writable.
  destruct (dir_ro w); [reflexivity|].
  destruct (book_dir w !! bookFilePath (js_add index (Int 1))) as [[?|]|];
    reflexivity.
Qed.

Lemma writeContent_falsy index parsed w :
  parsed <> JNull -> truthy (prop parsed "content") = false ->
  writeContent index (Doc parsed) w = (Ok (failure 400 "内容不能为空"), w).
Proof.
  intros Hn Ht. unfold writeContent, try_catch, bind, lift, JSON_parse.
  cbv beta iota. rewrite (getProp_prop _ _ Hn), Ht. reflexivity.
Qed.


(** *** Bounds checking *)






(** C9. [writeContent] with empty content is turned down as a validation
    failure (status 400, "content must not be empty"), which is not the
    answer to a failed write (status 500), and nothing is written: the
    disk is as before. *)
Theorem empty_content_rejected
    (index : jsnum) (kvs : list (string * json)) (w : world) :
  assoc "content" kvs = Some (JStr "") ->
  writeContent index (Doc (JObj kvs)) w = (Ok (failure 400 "内容不能为空"), w)
  /\ (forall kvs' s w', assoc "content" kvs' = Some (JStr s) -> s <> "" ->
        writable (bookFilePath (js_add index (Int 1))) w' = false ->
        writeContent index (Doc (JObj kvs')) w'
        = (Ok (failure 500 "写入失败"), w'))
  /\ failure 400 "内容不能为空" <> failure 500 "写入失败".
Proof.
  intros Hc. split; [|split].
  - apply writeContent_falsy; [discriminate|]. simpl. now rewrite Hc.
  - intros kvs' s w' Hc' Hs Hw.
    now rewrite (writeContent_string _ _ _ _ Hc' Hs), Hw.
  - unfold failure. congruence.
Qed.

Lemma empty_content_rejected_witness :
  writeContent (Int 0) (Doc (JObj [("content", JStr "")])) three_books
  = (Ok (failure 400 "内容不能为空"), three_books)
  /\ writeContent (Int 0) (Doc (JObj [("content", JStr "X")])) readonly_dir
     = (Ok (failure 500 "写入失败"), readonly_dir).
Proof.
  destruct (empty_content_rejected (Int 0) [("content", JStr "")] three_books)
    as (Hempty & Hio & _); [reflexivity|].
  split; [exact Hempty|].
  apply (Hio [("content", JStr "X")] "X" readonly_dir);
    [reflexivity|discriminate|vm_compute; reflexivity].
Defined.

(** C7, as the specification states it, does not hold of every content.
    The content made of one unpaired surrogate (a request body whose
    [content] is the escape [\ud800]) is not empty and the write at
    position 0 of the empty disk succeeds, but the encoding [utf8] has no
    bytes for it: the file holds U+FFFD, and that is what both reads
    return. *)
Lemma roundtrip_counterexample :
  let X := lone_surrogate in
  let w' := snd (server (POST_content "0" X) empty_disk) in
  X <> ""
  /\ fst (server (POST_content "0" X) empty_disk)
     = Ok (Reply 200 (JObj [("success", JBool true);
                            ("message", JStr "内容写入成功")]))
  /\ server (GET_content "0" (Some "sync")) w'
     = (Ok (Reply 200 (JObj [("success", JBool true); ("mode", JStr "sync");
                             ("content", JStr replacement_char)])), w')
  /\ server (GET_content "0" None) w'
     = (Ok (Reply 200 (JObj [("success", JBool true); ("mode", JStr "async");
                             ("content", JStr replacement_char)])), w')
  /\ replacement_char <> X.
Proof.
  cbv zeta. split; [discriminate|]. split; [reflexivity|].
  split; [vm_compute; reflexivity|]. split; [vm_compute; reflexivity|].
  discriminate.
Qed.

(** C7, amended.  Writing non-empty content [X] at a position and then
    reading the content at that position gives back [X] with every
    unpaired surrogate replaced by U+FFFD, and so [X] itself when [X] is
    well formed, in blocking ([sync]) and in non-blocking mode alike:
    both handlers name the blob [book_<position + 1>.txt].  The write
    succeeds whenever the blob can be written, and whenever it succeeds
    the reads answer with status 200, the mode used and that content. *)
Theorem write_then_read_roundtrip
    (index : jsnum) (kvs : list (string * json)) (X : string) (w : world) :
  assoc "content" kvs = Some (JStr X) ->
  X <> "" ->
  let name := bookFilePath (js_add index (Int 1)) in
  let written :=
    Reply 200 (JObj [("success", JBool true); ("message", JStr "内容写入成功")]) in
  let read mode content :=
    Reply 200 (JObj [("success", JBool true); ("mode", JStr mode);
                     ("content", JStr content)]) in
  (writable name w = true ->
     exists w', writeContent index (Doc (JObj kvs)) w = (Ok written, w'))
  /\ (forall w', writeContent index (Doc (JObj kvs)) w = (Ok written, w') ->
        book_dir w' = <[name := File (Str.toWellFormed X)]> (book_dir w)
        /\ readContent index (Some "sync") w'
           = (Ok (read "sync" (Str.toWellFormed X)), w')
        /\ readContent index (Some "async") w'
           = (Ok (read "async" (Str.toWellFormed X)), w')
        /\ (forall mode, readContent index mode w'
                         = (Ok (read (mode_used mode) (Str.toWellFormed X)), w'))
        /\ (Str.isWellFormed X = true ->
            readContent index (Some "sync") w' = (Ok (read "sync" X), w')
            /\ readContent index (Some "async") w' = (Ok (read "async" X), w')
            /\ forall mode, readContent index mode w'
                            = (Ok (read (mode_used mode) X), w'))).
Proof.
  intros Hc HX. cbv zeta. rewrite (writeContent_string _ _ _ _ Hc HX). split.
  - intros ->. eexists. reflexivity.
  - intros w'. destruct (writable _ w); [|discriminate].
    intros [= <-].
    assert (Hfile : forall mode,
      readContent index mode
        (set_book_dir (<[bookFilePath (js_add index (Int 1))
                         := File (Str.toWellFormed X)]> (book_dir w)) w)
      = (Ok (content_reply (mode_used mode) (Str.toWellFormed X)),
         set_book_dir (<[bookFilePath (js_add index (Int 1))
                         := File (Str.toWellFormed X)]> (book_dir w)) w)).
    { intros mode. apply readContent_file. fields. apply lookup_insert_eq. }
    split; [reflexivity|]. split; [apply (Hfile (Some "sync"))|].
    split; [apply (Hfile (Some "async"))|]. split; [exact Hfile|].
    intros Hwf. rewrite (toWellFormed_id _ Hwf) in Hfile |- *.
    split; [apply (Hfile (Some "sync"))|].
    split; [apply (Hfile (Some "async"))|exact Hfile].
Qed.

Lemma write_then_read_roundtrip_witness :
  exists w',
    writeContent (Int 5) (Doc (JObj [("content", JStr "X")])) three_books
    = (Ok (Reply 200 (JObj [("success", JBool true);
                            ("message", JStr "内容写入成功")])), w')
    /\ readContent (Int 5) (Some "sync") w'
       = (Ok (Reply 200 (JObj [("success", JBool true); ("mode", JStr "sync");
                               ("content", JStr "X")])), w')
    /\ readContent (Int 5) None w'
       = (Ok (Reply 200 (JObj [("success", JBool true); ("mode", JStr "async");
                               ("content", JStr "X")])), w').
Proof.
  destruct (write_then_read_roundtrip
              (Int 5) [("content", JStr "X")] "X" three_books)
    as [Hw Hr]; [reflexivity|discriminate|].
  destruct Hw as [w' Hw']; [vm_compute; reflexivity|].
  exists w'. split; [exact Hw'|].
  destruct (Hr w' Hw') as (_ & _ & _ & _ & Hwf).
  destruct Hwf as (Hsync & _ & Hany); [reflexivity|].
  split; [exact Hsync|exact (Hany None)].
Defined.

(** *** Create *)

Lemma len_snoc (l : list json) x :
  len (l ++ [x]) = Int (Z.of_nat (S (length l))).
Proof. unfold len. rewrite length_app. simpl. do 2 f_equal. lia. Qed.

Lemma createBook_invalid data errs w :
  validateBookData data = Ok errs -> errs <> [] ->
  createBook (Doc data) w = (Ok (errors_reply errs), w).
Proof.
  intros Hv Hne. unfold createBook, try_catch, bind, lift, JSON_parse.
  cbv beta iota. rewrite Hv. destruct errs; [congruence|reflexivity].
Qed.

Lemma createBook_throws data e w :
  validateBookData data = Throw e ->
  createBook (Doc data) w = (Ok invalid_json, w).
Proof.
  intros Hv. unfold createBook, try_catch, bind, lift, JSON_parse.
  cbv beta iota. rewrite Hv. reflexivity.
Qed.

Lemma createBook_valid data w :
  validateBookData data = Ok [] ->
  createBook (Doc data) w
  = if json_ro w
    then (Ok (failure 500 "保存失败"),
          add_console ("写入书籍数据失败:", EACCES) (after_read w))
    else
      let ordinal := S (length (collection w)) in
      let name := bookFilePath (Int (Z.of_nat ordinal)) in
      let saved :=
        set_book_json (Doc (collection w ++ [data])) (after_read w) in
      if writable name w
      then (Ok (success_data 201 "书籍添加成功" (Some data)),
            set_book_dir (<[name := File (placeholder ordinal)]> (book_dir w))
                         saved)
      else (Ok invalid_json, saved).
Proof.
  intros Hv. unfold createBook, try_catch, bind, lift, JSON_parse.
  cbv beta iota. rewrite Hv. cbn [length Nat.ltb Nat.leb]. cbv beta iota.
  rewrite readBooks_spec.
  destruct (json_ro w) eqn:Hro.
  - rewrite writeBooks_fail by (now rewrite after_read_json_ro). reflexivity.
  - rewrite writeBooks_ok by (now rewrite after_read_json_ro).
    rewrite len_snoc. unfold writeFileSync, writable. fields.
    rewrite after_read_dir_ro, after_read_book_dir.
    change ("This is book NO."
            +:+ num_to_string (Int (Z.of_nat (S (length (collection w))))))
      with (placeholder (S (length (collection w)))).
    rewrite placeholder_wf.
    destruct (dir_ro w); [reflexivity|].
    destruct (book_dir w !! _) as [[?|]|]; reflexivity.
Qed.

(** C5. For a candidate that passes validation, [createBook] appends the
    record to the collection, so that an ensuing [listBooks] shows one
    record more with the new one last, and it persists the collection
    before it creates the blob: the placeholder blob is named after the
    1-based ordinal of the new record and its text names that ordinal;
    when the blob cannot be written the record is persisted all the same,
    and when the collection cannot be persisted no blob is created. *)
Theorem create_appends_then_makes_placeholder (data : json) (w : world) :
  validateBookData data = Ok [] ->
  let ordinal := S (length (collection w)) in
  let name := bookFilePath (Int (Z.of_nat ordinal)) in
  (json_ro w = false -> writable name w = true ->
     exists w',
       createBook (Doc data) w
       = (Ok (success_data 201 "书籍添加成功" (Some data)), w')
       /\ collection w' = collection w ++ [data]
       /\ length (collection w') = S (length (collection w))
       /\ last (collection w') = Some data
       /\ fst (listBooks w')
          = Ok (Reply 200 (JObj [("success", JBool true);
                                 ("data", JArr (collection w ++ [data]))]))
       /\ book_dir w' = <[name := File (placeholder ordinal)]> (book_dir w)
       /\ book_dir w' !! name = Some (File (placeholder ordinal)))
  /\ (json_ro w = false -> writable name w = false ->
      exists w',
        createBook (Doc data) w = (Ok invalid_json, w')
        /\ collection w' = collection w ++ [data]
        /\ book_dir w' = book_dir w)
  /\ (json_ro w = true ->
      exists w',
        createBook (Doc data) w = (Ok (failure 500 "保存失败"), w')
        /\ collection w' = collection w
        /\ book_dir w' = book_dir w).
Proof.
  intros Hv. cbv zeta. rewrite (createBook_valid _ _ Hv). cbv zeta.
  set (ordinal := S (length (collection w))).
  set (name := bookFilePath (Int (Z.of_nat ordinal))).
  split; [|split].
  - intros Hro Hw. rewrite Hro, Hw. eexists. split; [reflexivity|].
    assert (Hcol : collection
              (set_book_dir (<[name := File (placeholder ordinal)]> (book_dir w))
                 (set_book_json (Doc (collection w ++ [data])) (after_read w)))
            = collection w ++ [data]) by reflexivity.
    rewrite Hcol. split; [reflexivity|]. split; [|split; [|split; [|split]]].
    + rewrite length_app. simpl. lia.
    + apply last_snoc.
    + unfold listBooks, bind. rewrite readBooks_spec, Hcol. reflexivity.
    + reflexivity.
    + fields. apply lookup_insert_eq.
  - intros Hro Hw. rewrite Hro, Hw. eexists. split; [reflexivity|].
    split; [reflexivity|]. fields. apply after_read_book_dir.
  - intros Hro. rewrite Hro. eexists. split; [reflexivity|]. split.
    + unfold collection. fields. now rewrite after_read_book_json.
    + fields. apply after_read_book_dir.
Qed.

Lemma create_appends_then_makes_placeholder_witness :
  (exists w',
     createBook (Doc bookA) empty_disk
     = (Ok (success_data 201 "书籍添加成功" (Some bookA)), w')
     /\ collection w' = [bookA]
     /\ length (collection w') = 1%nat
     /\ book_dir w' !! "book_1.txt" = Some (File "This is book NO.1"))
  /\ (exists w',
        createBook (Doc bookB) readonly_dir = (Ok invalid_json, w')
        /\ collection w' = [bookA; bookB]
        /\ book_dir w' = book_dir readonly_dir)
  /\ (exists w',
        createBook (Doc bookB) readonly_json
        = (Ok (failure 500 "保存失败"), w')
        /\ collection w' = [bookA]
        /\ book_dir w' = book_dir readonly_json).
Proof.
  split; [|split].
  - destruct (create_appends_then_makes_placeholder bookA empty_disk)
      as [Hok _]; [reflexivity|].
    destruct Hok as (w' & Hrun & Hcol & Hlen & _ & _ & _ & Hblob);
      [reflexivity|vm_compute; reflexivity|].
    exists w'. split; [exact Hrun|]. split; [exact Hcol|].
    split; [exact Hlen|exact Hblob].
  - destruct (create_appends_then_makes_placeholder bookB readonly_dir)
      as (_ & Hblob & _); [reflexivity|].
    apply Hblob; [reflexivity|vm_compute; reflexivity].
  - destruct (create_appends_then_makes_placeholder bookB readonly_json)
      as (_ & _ & Hjson); [reflexivity|].
    apply Hjson. reflexivity.
Defined.

(** *** What gets persisted *)

Lemma empty_text_false v :
  empty_text v = Ok false ->
  exists s, v = Some (JStr s) /\ Str.is_empty (Str.trim s) = false.
Proof.
  unfold empty_text.
  destruct v as [[|[]|[| |]|[|c s]| |]|]; simpl; try discriminate.
  intros [= H]. eauto.
Qed.

Lemma bad_date_false v :
  bad_date v = Ok false ->
  exists d ds, v = Some d /\ ToString d = Ok ds /\ Str.date_re ds = true.
Proof.
  unfold bad_date. destruct (truthy v); simpl; [|discriminate].
  destruct v as [d|]; [|discriminate].
  destruct (ToString d) as [ds|e] eqn:E; simpl; [|discriminate].
  intros [= H]. apply negb_false_iff in H. exists d, ds. auto.
Qed.

Lemma validate_valid_shape data :
  validateBookData data = Ok [] ->
  exists kvs b a s d ds,
    data = JObj kvs
    /\ assoc "book" kvs = Some (JStr b) /\ Str.is_empty (Str.trim b) = false
    /\ assoc "author" kvs = Some (JStr a) /\ Str.is_empty (Str.trim a) = false
    /\ assoc "summary" kvs = Some (JStr s) /\ Str.is_empty (Str.trim s) = false
    /\ assoc "subDate" kvs = Some d /\ ToString d = Ok ds
    /\ Str.date_re ds = true.
Proof.
  destruct data as [| | | | |kvs]; try discriminate.
  unfold validateBookData, getProp, res_bind. cbv beta iota zeta.
  destruct (empty_text (assoc "book" kvs)) as [c1|] eqn:E1; [|discriminate].
  destruct (empty_text (assoc "author" kvs)) as [c2|] eqn:E2; [|discriminate].
  destruct (empty_text (assoc "summary" kvs)) as [c3|] eqn:E3; [|discriminate].
  destruct (bad_date (assoc "subDate" kvs)) as [c4|] eqn:E4; [|discriminate].
  destruct c1, c2, c3, c4; try discriminate. intros _.
  apply empty_text_false in E1 as (b & Eb & Hb).
  apply empty_text_false in E2 as (a & Ea & Ha).
  apply empty_text_false in E3 as (s & Es & Hs).
  apply bad_date_false in E4 as (d & ds & Ed & Hd & Hre).
  exists kvs, b, a, s, d, ds. repeat split; assumption.
Qed.

Lemma assoc_keys k kvs v : assoc k kvs = Some v -> In k (map fst kvs).
Proof.
  induction kvs as [|[k' v'] kvs IH]; simpl; [discriminate|].
  destruct (String.eqb_spec k k') as [->|_]; [now left|].
  intros H. right. apply IH, H.
Qed.

(** C6, as the code has it.  The only records [createBook] and
    [updateBook] write to [book.json] are candidates that passed
    validation, written as they were parsed; such a record is an object
    that carries the keys [book], [author], [summary] and [subDate], the
    first three bound to strings that are not blank and the last to a
    value that prints as a date [\d{4}-\d{2}-\d{2}].  These four names
    are all the validator reads: two values that agree on them get the
    same verdict. *)
Theorem persisted_records_passed_validation
    (index : jsnum) (data : json) (w : world) :
  (book_json (snd (createBook (Doc data) w)) = book_json w
   \/ validateBookData data = Ok []
      /\ book_json (snd (createBook (Doc data) w))
         = Some (Doc (collection w ++ [data])))
  /\ (book_json (snd (updateBook index (Doc data) w)) = book_json w
      \/ validateBookData data = Ok []
         /\ book_json (snd (updateBook index (Doc data) w))
            = Some (Doc (array_set index data (collection w))))
  /\ (forall data', data <> JNull -> data' <> JNull ->
        (forall k, In k ["book"; "author"; "summary"; "subDate"] ->
                   prop data k = prop data' k) ->
        validateBookData data = validateBookData data')
  /\ (validateBookData data = Ok [] ->
      (forall k, In k ["book"; "author"; "summary"; "subDate"] ->
                 In k (keys data))
      /\ nonempty_after_trim (field data "book") = true
      /\ nonempty_after_trim (field data "author") = true
      /\ nonempty_after_trim (field data "summary") = true
      /\ exists d ds, prop data "subDate" = Some d /\ ToString d = Ok ds
                      /\ Str.date_re ds = true).
Proof.
  split; [|split; [|split]].
  - destruct (validateBookData data) as [[|e errs]|e] eqn:Hv.
    + rewrite (createBook_valid _ _ Hv). cbv zeta.
      destruct (json_ro w); [left; fields; apply after_read_book_json|].
      right. split; [reflexivity|]. destruct (writable _ w); reflexivity.
    + left. now rewrite (createBook_invalid _ _ _ Hv).
    + left. now rewrite (createBook_throws _ _ _ Hv).
  - destruct (validateBookData data) as [[|e errs]|e] eqn:Hv.
    + rewrite (updateBook_valid _ _ _ Hv).
      destruct (js_lt index (Int 0) || js_ge index (len (collection w)));
        [left; apply after_read_book_json|].
      destruct (json_ro w); [left; fields; apply after_read_book_json|].
      right. split; reflexivity.
    + left. now rewrite (updateBook_invalid _ _ _ _ Hv).
    + left. unfold updateBook, try_catch, bind, lift, JSON_parse.
      cbv beta iota. rewrite Hv. reflexivity.
  - intros data' Hn Hn' Hk. unfold validateBookData.
    rewrite !(getProp_prop _ _ Hn), !(getProp_prop _ _ Hn').
    rewrite !Hk by (simpl; tauto). reflexivity.
  - intros Hv.
    destruct (validate_valid_shape _ Hv)
      as (kvs & b & a & s & d & ds & -> & Hb & Hb' & Ha & Ha' & Hs & Hs'
          & Hd & Hds & Hre).
    split; [|split; [|split; [|split]]].
    + intros k Hk. simpl in Hk. unfold keys.
      destruct Hk as [<-|[<-|[<-|[<-|[]]]]]; eapply assoc_keys; eassumption.
    + unfold field. rewrite Hb. simpl. now rewrite Hb'.
    + unfold field. rewrite Ha. simpl. now rewrite Ha'.
    + unfold field. rewrite Hs. simpl. now rewrite Hs'.
    + exists d, ds. auto.
Qed.

Lemma persisted_records_passed_validation_witness :
  (forall k, In k ["book"; "author"; "summary"; "subDate"] ->
             In k (keys book_with_isbn))
  /\ nonempty_after_trim (field book_with_isbn "book") = true
  /\ validateBookData book_with_isbn = validateBookData bookA.
Proof.
  destruct (persisted_records_passed_validation (Int 0) book_with_isbn empty_disk)
    as (_ & _ & Hreads & H).
  destruct H as (Hkeys & Hbook & _); [reflexivity|].
  split; [exact Hkeys|]. split; [exact Hbook|].
  apply Hreads; [discriminate|discriminate|].
  intros k Hk. simpl in Hk.
  destruct Hk as [<-|[<-|[<-|[<-|[]]]]]; reflexivity.
Defined.

(** C6 as stated fails.  A record under the keys [title], [author],
    [summary], [publishDate] does not pass the validator, which misses
    [book] and [subDate], and so is never written; and a record that is
    written carries the keys [book] and [subDate], neither [title] nor
    [publishDate], along with any further key the client sent. *)
Lemma persisted_keys_counterexample :
  (validateBookData spec_keys_book = Ok [msg_book; msg_subDate]
   /\ createBook (Doc spec_keys_book) empty_disk
      = (Ok (errors_reply [msg_book; msg_subDate]), empty_disk))
  /\ (collection (snd (createBook (Doc book_with_isbn) empty_disk))
      = [book_with_isbn]
      /\ keys book_with_isbn = ["book"; "author"; "summary"; "subDate"; "isbn"]
      /\ ~ In "title" (keys book_with_isbn)
      /\ ~ In "publishDate" (keys book_with_isbn)).
Proof.
  split; split; try reflexivity.
  split; [reflexivity|].
  split; simpl; intuition discriminate.
Qed.

(** *** The index of the content routes *)

Lemma trimStart_digit c r :
  Str.digit c = true -> Str.trimStart (String c r) = String c r.
Proof.
  intros H. digit_case H; destruct r as [|c2 [|c3 r3]]; reflexivity.
Qed.

Lemma read_sign_digit c r :
  Str.digit c = true -> read_sign (String c r) = (1, String c r).
Proof. intros H. digit_case H; reflexivity. Qed.

Lemma read_radix_digits s :
  Str.all_digits s = true -> read_radix s = (10, s).
Proof.
  destruct s as [|c [|c2 r]]; try reflexivity.
  - simpl. rewrite andb_true_r. intros H. digit_case H; reflexivity.
  - simpl. rewrite !andb_true_iff. intros (H1 & H2 & _).
    digit_case H1; try reflexivity. digit_case H2; reflexivity.
Qed.

Lemma digit_val_digit c :
  Str.digit c = true -> exists d, digit_val 10 c = Some d /\ 0 <= d.
Proof.
  intros H. digit_case H; vm_compute; (eexists; split; [reflexivity|discriminate]).
Qed.

Lemma read_digits_digits s :
  Str.all_digits s = true ->
  forall acc, 0 <= default 0 acc -> (s <> "" \/ is_Some acc) ->
  exists m, read_digits 10 s acc = Some m /\ 0 <= m.
Proof.
  induction s as [|c s IH]; simpl; intros Hd acc Hacc Hne.
  - destruct Hne as [Hne|[m Hm]]; [congruence|]. subst. eauto.
  - apply andb_true_iff in Hd as [Hc Hs].
    destruct (digit_val_digit c Hc) as (d & -> & Hd).
    apply (IH Hs); [simpl; lia|right; eauto].
Qed.

(** On a run of digits [parseInt] is a non-negative integer. *)
Lemma parseInt_digits ds :
  Str.digits1 ds = true -> exists z, 0 <= z /\ parseInt ds = Int z.
Proof.
  unfold Str.digits1. destruct ds as [|c r]; [discriminate|].
  simpl negb. rewrite andb_true_l. intros Hd.
  assert (Hc : Str.digit c = true) by (simpl in Hd; now apply andb_true_iff in Hd).
  unfold parseInt. rewrite (trimStart_digit _ _ Hc), (read_sign_digit _ _ Hc).
  rewrite (read_radix_digits _ Hd).
  destruct (read_digits_digits _ Hd None) as (m & -> & Hm);
    [simpl; lia|left; discriminate|].
  exists (1 * m). split; [lia|reflexivity].
Qed.

Lemma digit_val_digit_le c :
  Str.digit c = true -> exists d, digit_val 10 c = Some d /\ 0 <= d <= 9.
Proof.
  intros H. digit_case H; eexists; (split; [vm_compute; reflexivity|lia]).
Qed.

(** A run of [n] digits reads as a number below [10 ^ n]. *)
Lemma read_digits_bound s :
  Str.all_digits s = true ->
  forall acc m, 0 <= default 0 acc -> read_digits 10 s acc = Some m ->
  0 <= m < (default 0 acc + 1) * 10 ^ Z.of_nat (String.length s).
Proof.
  induction s as [|c s IH]; intros Hd acc m Hacc Hr.
  - simpl in Hr. subst acc. simpl in *. lia.
  - cbn [Str.all_digits] in Hd. apply andb_true_iff in Hd as [Hc Hs].
    destruct (digit_val_digit_le c Hc) as (d & Hval & Hd).
    cbn [read_digits] in Hr. rewrite Hval in Hr.
    apply (IH Hs) in Hr; [|simpl; lia]. cbn [default] in Hr.
    cbn [String.length]. rewrite Nat2Z.inj_succ, Z.pow_succ_r by lia.
    assert (HP : 0 < 10 ^ Z.of_nat (String.length s))
      by (apply Z.pow_pos_nonneg; lia).
    set (P := 10 ^ Z.of_nat (String.length s)) in *.
    set (a := default 0 acc) in *.
    unfold id in Hr.
    assert (Hle : (10 * a + d + 1) * P <= (10 * a + 10) * P)
      by (apply Z.mul_le_mono_nonneg_r; lia).
    replace ((a + 1) * (10 * P)) with ((10 * a + 10) * P) by ring.
    lia.
Qed.

Lemma parseInt_digits_bound ds :
  Str.digits1 ds = true ->
  exists z, 0 <= z < 10 ^ Z.of_nat (String.length ds) /\ parseInt ds = Int z.
Proof.
  unfold Str.digits1. destruct ds as [|c r]; [discriminate|].
  simpl negb. rewrite andb_true_l. intros Hd.
  assert (Hc : Str.digit c = true) by (simpl in Hd; now apply andb_true_iff in Hd).
  unfold parseInt. rewrite (trimStart_digit _ _ Hc), (read_sign_digit _ _ Hc).
  rewrite (read_radix_digits _ Hd).
  destruct (read_digits_digits _ Hd None) as (m & Hr & Hm);
    [simpl; lia|left; discriminate|].
  pose proof (read_digits_bound _ Hd None m) as Hb. rewrite Hr.
  exists (1 * m). split; [|reflexivity].
  specialize (Hb ltac:(simpl; lia) Hr). simpl default in Hb. lia.
Qed.

Lemma split_nonempty sep s : Str.split sep s <> [].
Proof.
  destruct s as [|c s]; simpl; [discriminate|].
  destruct (Ascii.eqb c sep); [discriminate|].
  destruct (Str.split sep s); discriminate.
Qed.

Lemma join_cons sep s w ws :
  join sep (s :: w :: ws) = s +:+ String sep (join sep (w :: ws)).
Proof. reflexivity. Qed.

Lemma join_split sep s : join sep (Str.split sep s) = s.
Proof.
  induction s as [|c s IH]; [reflexivity|]. simpl Str.split.
  pose proof (split_nonempty sep s) as Hne.
  destruct (Str.split sep s) as [|w ws]; [congruence|].
  destruct (Ascii.eqb_spec c sep) as [->|_].
  - rewrite join_cons, IH. reflexivity.
  - destruct ws as [|w' ws].
    + simpl in *. now rewrite IH.
    + rewrite join_cons. rewrite join_cons in IH.
      change (String c (w +:+ String sep (join sep (w' :: ws))) = String c s).
      now rewrite IH.
Qed.

(** A path that matches [^\/api\/books\/\d+\/content$] is
    [/api/books/<digits>/content]. *)
Lemma content_path_shape p :
  content_path p = true ->
  exists ds, Str.digits1 ds = true
             /\ p = "/api/books/" +:+ ds +:+ "/content"
             /\ nth 3 (Str.split "/" p) "undefined" = ds.
Proof.
  unfold content_path. intros H. pose proof (join_split "/" p) as Hj.
  destruct (Str.split "/" p) as [|s0 [|s1 [|s2 [|ds [|s4 [|? ?]]]]]];
    try discriminate.
  rewrite !andb_true_iff in H. destruct H as ((((H0 & H1) & H2) & Hd) & H4).
  apply String.eqb_eq in H0, H1, H2, H4. subst s0 s1 s2 s4.
  exists ds. split; [exact Hd|]. split; [|reflexivity].
  rewrite <- Hj. reflexivity.
Qed.

Lemma content_route_index p :
  content_path p = true -> exists z, 0 <= z /\ path_index p = Int z.
Proof.
  intros H. destruct (content_path_shape p H) as (ds & Hd & _ & Hn).
  unfold path_index. rewrite Hn. now apply parseInt_digits.
Qed.

Lemma route_content p m q b :
  content_path p = true ->
  server (Request m p q b)
  = if String.eqb m "OPTIONS" then ret (Bare 200)
    else if String.eqb m "DELETE" then deleteBook (path_index p)
    else if String.eqb m "PUT" then updateBook (path_index p) b
    else if String.eqb m "GET" then readContent (path_index p) q
    else if String.eqb m "POST" then writeContent (path_index p) b
    else ret (failure 404 "接口不存在").
Proof.
  intros H. unfold server. cbn [method pathname query_mode body]. rewrite H.
  destruct (content_path_shape p H) as (ds & Hd & -> & _).
  destruct ds as [|c ds]; [discriminate Hd|].
  destruct (String.eqb m "OPTIONS"); [reflexivity|].
  change (Str.startsWith ("/api/books/" +:+ String c ds +:+ "/content") "/api/")
    with true.
  change (Str.startsWith ("/api/books/" +:+ String c ds +:+ "/content")
                         "/api/books/")
    with true.
  change (String.eqb ("/api/books/" +:+ String c ds +:+ "/content") "/api/books")
    with false.
  cbn [negb andb].
  destruct (String.eqb m "DELETE"); [reflexivity|].
  destruct (String.eqb m "PUT"); [reflexivity|].
  destruct (String.eqb m "GET"); [reflexivity|].
  destruct (String.eqb m "POST"); reflexivity.
Qed.

(** * Beyond the claims *)

(** ** What each handler can answer *)

Lemma createBook_cases body w :
  createBook body w = (Ok invalid_json, w)
  \/ (exists errs, errs <> [] /\ createBook body w = (Ok (errors_reply errs), w))
  \/ createBook body w
     = (Ok (failure 500 "保存失败"),
        add_console ("写入书籍数据失败:", EACCES) (after_read w))
  \/ (exists data,
        createBook body w
        = (Ok (success_data 201 "书籍添加成功" (Some data)),
           set_book_dir
             (<[bookFilePath (Int (Z.of_nat (S (length (collection w)))))
                := File (placeholder (S (length (collection w))))]> (book_dir w))
             (set_book_json (Doc (collection w ++ [data])) (after_read w))))
  \/ (exists data,
        createBook body w
        = (Ok invalid_json,
           set_book_json (Doc (collection w ++ [data])) (after_read w))).
Proof.
  destruct body as [|data]; [left; reflexivity|].
  destruct (validateBookData data) as [[|e errs]|e] eqn:Hv.
  - rewrite (createBook_valid _ _ Hv). cbv zeta.
    destruct (json_ro w); [right; right; left; reflexivity|].
    destruct (writable _ w); [right; right; right; left|do 4 right];
      exists data; reflexivity.
  - right; left. exists (e :: errs). split; [discriminate|].
    apply createBook_invalid; [assumption|discriminate].
  - left. eapply createBook_throws, Hv.
Qed.

Lemma updateBook_throws index data e w :
  validateBookData data = Throw e ->
  updateBook index (Doc data) w = (Ok invalid_json, w).
Proof.
  intros Hv. unfold updateBook, try_catch, bind, lift, JSON_parse.
  cbv beta iota. rewrite Hv. reflexivity.
Qed.

Lemma updateBook_cases index body w :
  updateBook index body w = (Ok invalid_json, w)
  \/ (exists errs, errs <> []
                   /\ updateBook index body w = (Ok (errors_reply errs), w))
  \/ updateBook index body w = (Ok not_found, after_read w)
  \/ updateBook index body w
     = (Ok (failure 500 "更新失败"),
        add_console ("写入书籍数据失败:", EACCES) (after_read w))
  \/ (exists data,
        updateBook index body w
        = (Ok (success_data 200 "书籍更新成功" (Some data)),
           set_book_json (Doc (array_set index data (collection w)))
                         (after_read w))).
Proof.
  destruct body as [|data]; [left; reflexivity|].
  destruct (validateBookData data) as [[|e errs]|e] eqn:Hv.
  - rewrite (updateBook_valid _ _ _ Hv).
    destruct (js_lt index (Int 0) || js_ge index (len (collection w)));
      [right; right; left; reflexivity|].
    destruct (json_ro w); [right; right; right; left; reflexivity|].
    do 4 right. exists data. reflexivity.
  - right; left. exists (e :: errs). split; [discriminate|].
    apply updateBook_invalid; [assumption|discriminate].
  - left. eapply updateBook_throws, Hv.
Qed.

(** [deleteBook] in one piece. *)
Lemma deleteBook_unfold index w :
  deleteBook index w
  = if js_lt index (Int 0) || js_ge index (len (collection w))
    then (Ok not_found, after_read w)
    else
      let '(removed, books) := splice index 1 (collection w) in
      let name := bookFilePath (js_add index (Int 1)) in
      let saved := set_book_json (Doc books) (after_read w) in
      let done := Ok (success_data 200 "书籍删除成功" (head removed)) in
      if json_ro w
      then (Ok (failure 500 "删除失败"),
            add_console ("写入书籍数据失败:", EACCES) (after_read w))
      else match book_dir w !! name with
           | None => (done, saved)
           | Some (File _) =>
               if dir_ro w then (Throw EACCES, saved)
               else (done, set_book_dir (delete name (book_dir w)) saved)
           | Some Dir =>
               (Throw (if dir_ro w then EACCES else EISDIR), saved)
           end.
Proof.
  unfold deleteBook, bind at 1. rewrite readBooks_spec.
  destruct (js_lt index (Int 0) || js_ge index (len (collection w)));
    [reflexivity|].
  destruct (splice index 1 (collection w)) as [removed books]. cbv zeta.
  unfold bind at 1. destruct (json_ro w) eqn:Hro.
  - rewrite writeBooks_fail by (now rewrite after_read_json_ro). reflexivity.
  - rewrite writeBooks_ok by (now rewrite after_read_json_ro).
    unfold bind, existsSync, unlinkSync, ret. fields.
    rewrite ?after_read_book_dir, ?after_read_dir_ro.
    destruct (book_dir w !! bookFilePath (js_add index (Int 1)))
      as [[s|]|] eqn:E.
    + rewrite bool_decide_eq_true_2 by eauto. fields.
      rewrite ?after_read_book_dir, ?after_read_dir_ro, ?E.
      destruct (dir_ro w); reflexivity.
    + rewrite bool_decide_eq_true_2 by eauto. fields.
      rewrite ?after_read_book_dir, ?after_read_dir_ro, ?E.
      destruct (dir_ro w); reflexivity.
    + rewrite bool_decide_eq_false_2 by (intros [? ?]; discriminate).
      reflexivity.
Qed.

Lemma deleteBook_cases index w :
  deleteBook index w = (Ok not_found, after_read w)
  \/ deleteBook index w
     = (Ok (failure 500 "删除失败"),
        add_console ("写入书籍数据失败:", EACCES) (after_read w))
  \/ (exists removed books,
        splice index 1 (collection w) = (removed, books)
        /\ json_ro w = false
        /\ (deleteBook index w
            = (Ok (success_data 200 "书籍删除成功" (head removed)),
               set_book_dir
                 (delete (bookFilePath (js_add index (Int 1))) (book_dir w))
                 (set_book_json (Doc books) (after_read w)))
            \/ (exists e, (e = EACCES \/ e = EISDIR)
                  /\ deleteBook index w
                     = (Throw e, set_book_json (Doc books) (after_read w))))).
Proof.
  rewrite deleteBook_unfold.
  destruct (js_lt index (Int 0) || js_ge index (len (collection w)));
    [left; reflexivity|].
  destruct (splice index 1 (collection w)) as [removed books]. cbv zeta.
  destruct (json_ro w); [right; left; reflexivity|].
  right; right. exists removed, books. split; [reflexivity|].
  split; [reflexivity|].
  destruct (book_dir w !! bookFilePath (js_add index (Int 1)))
    as [[s|]|] eqn:E.
  - destruct (dir_ro w); [right; exists EACCES; auto|left; reflexivity].
  - destruct (dir_ro w); right; [exists EACCES|exists EISDIR]; auto.
  - left. rewrite (delete_id _ _ E).
    unfold set_book_dir, set_book_json. fields.
    now rewrite after_read_book_dir.
Qed.


Lemma listBooks_spec w :
  listBooks w
  = (Ok (Reply 200 (JObj [("success", JBool true);
                          ("data", JArr (collection w))])),
     after_read w).
Proof. unfold listBooks, bind. now rewrite readBooks_spec. Qed.

Lemma readContent_cases index mode w :
  exists r, readContent index mode w = (Ok r, w)
            /\ ((exists msg, r = failure 404 msg)
                \/ r = failure 500 "读取失败"
                \/ exists s, r = content_reply (mode_used mode) s).
Proof.
  destruct (book_dir w !! bookFilePath (js_add index (Int 1)))
    as [[s|]|] eqn:E.
  - rewrite (readContent_file _ _ _ _ E). eauto 8.
  - unfold readContent. rewrite mode_used_sync.
    destruct (mode_used_cases mode) as [-> | ->].
    + change (String.eqb "sync" "sync") with true. cbv iota.
      unfold try_catch, bind, existsSync, readFileSync. cbv beta.
      rewrite E, bool_decide_eq_true_2 by eauto. cbn [negb]. rewrite E.
      eexists. split; [reflexivity|]. auto.
    + change (String.eqb "async" "sync") with false. cbv iota.
      unfold bind, readFile, callback, readFileSync. cbv beta. rewrite E.
      eexists. split; [reflexivity|]. eauto.
  - destruct (readContent_absent index mode w E) as (msg & ->). eauto 8.
Qed.

Lemma writeContent_cases index body w :
  writeContent index body w = (Ok invalid_json, w)
  \/ writeContent index body w = (Ok (failure 400 "内容不能为空"), w)
  \/ writeContent index body w = (Ok (failure 500 "写入失败"), w)
  \/ (exists s, s <> ""
        /\ writeContent index body w
           = (Ok write_ok,
              set_book_dir (<[bookFilePath (js_add index (Int 1))
                              := File (Str.toWellFormed s)]> (book_dir w)) w)).
Proof.
  destruct body as [|parsed]; [left; reflexivity|].
  destruct parsed as [| | | | |kvs];
    try (left; reflexivity); try (right; left; reflexivity).
  destruct (assoc "content" kvs) as [v|] eqn:Hc.
  - destruct v as [|[]|n|s| |];
      try (right; left; unfold writeContent, try_catch, bind, lift,
             JSON_parse, getProp; cbv beta iota; rewrite Hc; reflexivity);
      try (left; unfold writeContent, try_catch, bind, lift,
             JSON_parse, getProp; cbv beta iota; rewrite Hc; reflexivity).
    + destruct n;
        [right; left|left|left];
        unfold writeContent, try_catch, bind, lift, JSON_parse, getProp;
        cbv beta iota; rewrite Hc; reflexivity.
    + destruct s as [|c s].
      * right; left.
        unfold writeContent, try_catch, bind, lift, JSON_parse, getProp;
        cbv beta iota; rewrite Hc; reflexivity.
      * rewrite (writeContent_string _ _ _ _ Hc) by discriminate.
        destruct (writable _ w); [do 3 right|right; right; left; reflexivity].
        eexists. split; [|reflexivity]. discriminate.
  - right; left.
    unfold writeContent, try_catch, bind, lift, JSON_parse, getProp;
    cbv beta iota; rewrite Hc; reflexivity.
Qed.

(** ** Where a request goes *)

Lemma server_routes req :
  server req = ret (Bare 200)
  \/ server req = ret (Static (pathname req))
  \/ (method req = "POST" /\ server req = createBook (body req))
  \/ (method req = "DELETE"
      /\ server req = deleteBook (path_index (pathname req)))
  \/ (method req = "PUT"
      /\ server req = updateBook (path_index (pathname req)) (body req))
  \/ (method req = "GET" /\ server req = listBooks)
  \/ (method req = "GET"
      /\ server req = readContent (path_index (pathname req)) (query_mode req))
  \/ (method req = "POST"
      /\ server req = writeContent (path_index (pathname req)) (body req))
  \/ server req = ret (failure 404 "接口不存在").
Proof.
  unfold server. cbv zeta.
  destruct (String.eqb (method req) "OPTIONS"); [auto|].
  destruct (negb (Str.startsWith (pathname req) "/api/")); [auto|].
  repeat match goal with
  | |- context [if ?a && String.eqb (method req) ?m then _ else _] =>
      let E := fresh "E" in
      destruct (a && String.eqb (method req) m) eqn:E;
      [apply andb_true_iff in E as [_ E]; apply String.eqb_eq in E;
       auto 12|clear E]
  end.
  auto 12.
Qed.





(** X5. Every answer has the uniform shape: a JSON body is an object
    whose [success] is true exactly at status 200 and 201, the status is
    one of 200, 201, 400, 404 and 500, and a failure carries a [message]
    or a list of [errors]. *)
Theorem every_answer_has_the_envelope (req : request) (w : world) (r : reply) :
  fst (server req w) = Ok r -> envelope r = true.
Proof.
  destruct (server_routes req)
    as [H|[H|[[_ H]|[[_ H]|[[_ H]|[[_ H]|[[_ H]|[[_ H]|H]]]]]]]];
    rewrite H.
  - intros [= <-]. reflexivity.
  - intros [= <-]. reflexivity.
  - destruct (createBook_cases (body req) w)
      as [C|[(? & _ & C)|[C|[(? & C)|(? & C)]]]]; rewrite C;
      intros [= <-]; reflexivity.
  - destruct (deleteBook_cases (path_index (pathname req)) w)
      as [C|[C|(removed & books & _ & _ & [C|(e' & _ & C)])]];
      rewrite C; intros [= <-]; reflexivity.
  - destruct (updateBook_cases (path_index (pathname req)) (body req) w)
      as [C|[(? & _ & C)|[C|[C|(? & C)]]]]; rewrite C;
      intros [= <-]; reflexivity.
  - rewrite listBooks_spec. intros [= <-]. reflexivity.
  - destruct (readContent_cases (path_index (pathname req))
                                (query_mode req) w)
      as (r' & C & [(msg & ->)|[->|(s & ->)]]);
      rewrite C; intros [= <-]; reflexivity.
  - destruct (writeContent_cases (path_index (pathname req)) (body req) w)
      as [C|[C|[C|(? & _ & C)]]]; rewrite C; intros [= <-]; reflexivity.
  - intros [= <-]. reflexivity.
Qed.

Lemma every_answer_has_the_envelope_witness :
  envelope (success_data 200 "书籍删除成功" (Some bookB)) = true.
Proof.
  apply (every_answer_has_the_envelope (DELETE_at "1") three_books).
  vm_compute. reflexivity.
Defined.

(** ** Requests whose index is not a number *)

(** X6. A PUT request whose index segment is not a number, with a
    candidate that passes validation, is answered with success although
    no record is changed: [NaN] passes the bounds check and [books[NaN]]
    names no element, so the collection that is written back is the one
    that was read. *)
Theorem update_at_NaN_changes_nothing
    (req : request) (data : json) (w : world) :
  method req = "PUT" ->
  Str.startsWith (pathname req) "/api/books/" = true ->
  path_index (pathname req) = NaN ->
  body req = Doc data ->
  validateBookData data = Ok [] ->
  json_ro w = false ->
  exists w',
    server req w = (Ok (success_data 200 "书籍更新成功" (Some data)), w')
    /\ collection w' = collection w
    /\ book_dir w' = book_dir w.
Proof.
  intros Hm Hp Hi Hb Hv Hro.
  rewrite (route_PUT _ Hm Hp), Hi, Hb, (updateBook_valid _ _ _ Hv).
  rewrite bounds_NaN, Hro. eexists. split; [reflexivity|]. split.
  - reflexivity.
  - fields. apply after_read_book_dir.
Qed.

Lemma update_at_NaN_changes_nothing_witness :
  exists w',
    server (Request "PUT" "/api/books/abc" None (Doc bookB)) three_books
    = (Ok (success_data 200 "书籍更新成功" (Some bookB)), w')
    /\ collection w' = collection three_books
    /\ book_dir w' = book_dir three_books.
Proof.
  apply (update_at_NaN_changes_nothing
           (Request "PUT" "/api/books/abc" None (Doc bookB)) bookB three_books);
    reflexivity.
Defined.

(** X7. On an empty collection a DELETE request whose index segment is not
    a number is answered with success and no record: nothing is removed,
    an empty array is written to [book.json], and the answer has no
    [data]. *)
Theorem delete_at_NaN_on_empty (req : request) (w : world) :
  method req = "DELETE" ->
  Str.startsWith (pathname req) "/api/books/" = true ->
  path_index (pathname req) = NaN ->
  collection w = [] ->
  json_ro w = false ->
  removable "book_NaN.txt" w = true ->
  exists w',
    server req w
    = (Ok (Reply 200 (JObj [("success", JBool true);
                            ("message", JStr "书籍删除成功")])), w')
    /\ book_json w' = Some (Doc [])
    /\ forall name, name <> "book_NaN.txt" ->
                    book_dir w' !! name = book_dir w !! name.
Proof.
  intros Hm Hp Hi Hc Hro Hrm.
  rewrite (route_DELETE _ Hm Hp), Hi, deleteBook_unfold, Hc.
  change (js_lt NaN (Int 0) || js_ge NaN (len [])) with false.
  change (splice NaN 1 []) with (@nil json, @nil json).
  change (bookFilePath (js_add NaN (Int 1))) with "book_NaN.txt".
  cbv zeta beta iota. rewrite Hro. unfold removable in Hrm.
  destruct (book_dir w !! "book_NaN.txt") as [[s|]|] eqn:E.
  - apply negb_true_iff in Hrm. rewrite Hrm.
    eexists. split; [reflexivity|]. split; [reflexivity|].
    intros name Hne. fields. rewrite lookup_delete_ne by congruence.
    reflexivity.
  - discriminate.
  - eexists. split; [reflexivity|]. split; [reflexivity|].
    intros name _. fields. now rewrite after_read_book_dir.
Qed.

Lemma delete_at_NaN_on_empty_witness :
  exists w',
    server (DELETE_at "abc") empty_disk
    = (Ok (Reply 200 (JObj [("success", JBool true);
                            ("message", JStr "书籍删除成功")])), w')
    /\ book_json w' = Some (Doc []).
Proof.
  destruct (delete_at_NaN_on_empty (DELETE_at "abc") empty_disk)
    as (w' & Hrun & Hjson & _); try reflexivity.
  exists w'. split; [exact Hrun|exact Hjson].
Defined.

(** ** Blob names *)

Lemma length_append s t :
  String.length (s +:+ t) = (String.length s + String.length t)%nat.
Proof. induction s as [|c s IH]; simpl; [reflexivity|now rewrite IH]. Qed.

Lemma append_cancel_r s1 s2 t : s1 +:+ t = s2 +:+ t -> s1 = s2.
Proof.
  revert s2. induction s1 as [|c s1 IH]; intros [|c' s2] H.
  - reflexivity.
  - apply (f_equal String.length) in H.
    change ("" +:+ t) with t in H.
    change (String c' s2 +:+ t) with (String c' (s2 +:+ t)) in H.
    cbn [String.length] in H. rewrite length_append in H. lia.
  - apply (f_equal String.length) in H.
    change ("" +:+ t) with t in H.
    change (String c s1 +:+ t) with (String c (s1 +:+ t)) in H.
    cbn [String.length] in H. rewrite length_append in H. lia.
  - simpl in H. injection H as -> H. f_equal. apply IH, H.
Qed.

Lemma append_cancel_l s t1 t2 : s +:+ t1 = s +:+ t2 -> t1 = t2.
Proof.
  induction s as [|c s IH]; simpl; [trivial|].
  intros H. injection H as H. apply IH, H.
Qed.

(** X8. Among the safe integers the blob name is an injective function
    of the position: two different positions never share a blob file.
    (Beyond them [index + 1] rounds, and the positions 2^53 - 1 and 2^53
    get one name.) *)
Theorem bookFilePath_injective (p q : Z) :
  safe p -> safe q -> p <> q ->
  bookFilePath (js_add (Int p) (Int 1)) <> bookFilePath (js_add (Int q) (Int 1)).
Proof.
  intros _ _ Hne H. apply Hne. revert H.
  unfold bookFilePath, js_add, num_to_string. intros H.
  apply append_cancel_l, append_cancel_r in H.
  apply pretty_Z_inj in H. lia.
Qed.

Lemma bookFilePath_injective_witness :
  "book_9007199254740991.txt" <> "book_9007199254740992.txt".
Proof.
  apply (bookFilePath_injective (2 ^ 53 - 2) (2 ^ 53 - 1));
    unfold safe; lia.
Defined.

Lemma bookFilePath_ne p q : p <> q -> bookFilePath (Int p) <> bookFilePath (Int q).
Proof.
  intros Hne H. apply Hne. revert H.
  unfold bookFilePath, num_to_string. intros H.
  apply append_cancel_l, append_cancel_r in H.
  exact (pretty_Z_inj _ _ H).
Qed.

(** ** Reading depends on one blob, writing changes one blob *)

Lemma readContent_reply index mode w :
  readContent index mode w
  = (Ok match book_dir w !! bookFilePath (js_add index (Int 1)) with
        | Some (File s) => content_reply (mode_used mode) s
        | Some Dir =>
            if String.eqb (mode_used mode) "sync"
            then failure 500 "读取失败"
            else failure 404 "书籍文件不存在或读取失败"
        | None =>
            if String.eqb (mode_used mode) "sync"
            then failure 404 "书籍文件不存在"
            else failure 404 "书籍文件不存在或读取失败"
        end, w).
Proof.
  destruct (book_dir w !! bookFilePath (js_add index (Int 1)))
    as [[s|]|] eqn:E.
  - apply readContent_file, E.
  - unfold readContent. rewrite mode_used_sync.
    destruct (mode_used_cases mode) as [-> | ->].
    + change (String.eqb "sync" "sync") with true. cbv iota.
      unfold try_catch, bind, existsSync, readFileSync. cbv beta.
      rewrite E, bool_decide_eq_true_2 by eauto. cbn [negb]. rewrite E.
      reflexivity.
    + change (String.eqb "async" "sync") with false. cbv iota.
      unfold bind, readFile, callback, readFileSync. cbv beta. rewrite E.
      reflexivity.
  - unfold readContent. rewrite mode_used_sync.
    destruct (mode_used_cases mode) as [-> | ->].
    + change (String.eqb "sync" "sync") with true. cbv iota.
      unfold try_catch, bind, existsSync. cbv beta.
      rewrite E, bool_decide_eq_false_2 by (intros [? ?]; discriminate).
      reflexivity.
    + change (String.eqb "async" "sync") with false. cbv iota.
      unfold bind, readFile, callback, readFileSync. cbv beta. rewrite E.
      reflexivity.
Qed.

Lemma readContent_ext index mode w1 w2 :
  book_dir w1 !! bookFilePath (js_add index (Int 1))
  = book_dir w2 !! bookFilePath (js_add index (Int 1)) ->
  fst (readContent index mode w1) = fst (readContent index mode w2).
Proof. intros H. rewrite !readContent_reply, H. reflexivity. Qed.

(** X9. [writeContent] at a position, a safe integer, changes nothing
    but the blob of that position: [book.json] stays as it was, every
    other entry of the blob directory stays as it was, and so the content
    read at any other position, a safe integer too, is what it was
    before. *)
Theorem writeContent_touches_one_blob
    (p : Z) (body : text json) (w : world) :
  safe p ->
  let w' := snd (writeContent (Int p) body w) in
  book_json w' = book_json w
  /\ (forall name, name <> bookFilePath (js_add (Int p) (Int 1)) ->
                   book_dir w' !! name = book_dir w !! name)
  /\ (forall q mode, safe q -> q <> p ->
        fst (readContent (Int q) mode w') = fst (readContent (Int q) mode w)).
Proof.
  intros _. cbv zeta.
  assert (Hdir : forall name, name <> bookFilePath (js_add (Int p) (Int 1)) ->
            book_dir (snd (writeContent (Int p) body w)) !! name
            = book_dir w !! name).
  { intros name Hne.
    destruct (writeContent_cases (Int p) body w)
      as [C|[C|[C|(s & _ & C)]]]; rewrite C; try reflexivity.
    fields. apply lookup_insert_ne. intros Heq. apply Hne. symmetry.
    exact Heq. }
  split; [|split; [exact Hdir|]].
  - destruct (writeContent_cases (Int p) body w)
      as [C|[C|[C|(s & _ & C)]]]; rewrite C; reflexivity.
  - intros q mode _ Hq. apply readContent_ext. apply Hdir.
    change (bookFilePath (Int (q + 1)) <> bookFilePath (Int (p + 1))).
    apply bookFilePath_ne. lia.
Qed.

Lemma writeContent_touches_one_blob_witness :
  book_dir (snd (writeContent (Int 1) (Doc (JObj [("content", JStr "X")]))
                              three_books)) !! "book_1.txt"
  = Some (File "one")
  /\ fst (readContent (Int 0) None
            (snd (writeContent (Int 1) (Doc (JObj [("content", JStr "X")]))
                               three_books)))
     = fst (readContent (Int 0) None three_books).
Proof.
  destruct (writeContent_touches_one_blob
              1 (Doc (JObj [("content", JStr "X")])) three_books)
    as (_ & Hdir & Hread); [unfold safe; lia|].
  split.
  - rewrite (Hdir "book_1.txt"); [reflexivity|discriminate].
  - apply Hread; [unfold safe; lia|discriminate].
Defined.

(** X10. After a record was deleted at position [z], the content of
    position [z] is NotFound in both modes, even when another record has
    moved down to [z]; the content of every other position is what it was
    before: the blobs do not move with the records. *)
Theorem delete_leaves_position_without_blob (z : Z) (w : world) :
  in_range z (collection w) ->
  json_ro w = false ->
  removable (bookFilePath (Int (z + 1))) w = true ->
  let w' := snd (deleteBook (Int z) w) in
  (forall mode, exists msg,
     readContent (Int z) mode w' = (Ok (failure 404 msg), w'))
  /\ (forall q mode, q <> z ->
        fst (readContent (Int q) mode w') = fst (readContent (Int q) mode w))
  /\ (Z.to_nat z + 1 < length (collection w) -> in_range z (collection w'))%nat.
Proof.
  intros Hin Hro Hrm. cbv zeta.
  rewrite (deleteBook_in_range _ _ Hin Hro Hrm). cbn [snd].
  split; [|split].
  - intros mode. apply readContent_absent. fields. apply lookup_delete_eq.
  - intros q mode Hq. apply readContent_ext. fields.
    apply lookup_delete_ne, bookFilePath_ne. lia.
  - intros Hlt.
    replace (collection
               (set_book_dir (delete (bookFilePath (Int (z + 1))) (book_dir w))
                  (set_book_json (Doc (delete (Z.to_nat z) (collection w))) w)))
      with (delete (Z.to_nat z) (collection w)) by reflexivity.
    unfold in_range in *. rewrite length_delete.
    + lia.
    + apply lookup_lt_is_Some. lia.
Qed.

Lemma delete_leaves_position_without_blob_witness :
  (exists msg,
     readContent (Int 1) (Some "sync") (snd (deleteBook (Int 1) three_books))
     = (Ok (failure 404 msg), snd (deleteBook (Int 1) three_books)))
  /\ in_range 1 (collection (snd (deleteBook (Int 1) three_books))).
Proof.
  destruct (delete_leaves_position_without_blob 1 three_books)
    as (Hgone & _ & Hstill).
  - unfold in_range. simpl. lia.
  - reflexivity.
  - vm_compute. reflexivity.
  - split; [apply Hgone|apply Hstill]. simpl. lia.
Defined.

(** ** Records and their blobs *)

Lemma blob_of_ordinal i : blob_of i = bookFilePath (Int (Z.of_nat (S i))).
Proof. unfold blob_of. do 2 f_equal. lia. Qed.

Lemma blob_of_ne i j : i <> j -> blob_of i <> blob_of j.
Proof. intros H. unfold blob_of. apply bookFilePath_ne. lia. Qed.

Lemma aligned_ext w1 w2 :
  collection w2 = collection w1 -> book_dir w2 = book_dir w1 ->
  aligned w1 -> aligned w2.
Proof. unfold aligned. intros -> ->. trivial. Qed.

Lemma aligned_after_read w : aligned w -> aligned (after_read w).
Proof.
  apply aligned_ext; [|apply after_read_book_dir].
  unfold collection. now rewrite after_read_book_json.
Qed.

Lemma collection_after_read w : collection (after_read w) = collection w.
Proof. unfold collection. now rewrite after_read_book_json. Qed.

Lemma updateBook_keeps_length index body w :
  length (collection (snd (updateBook index body w))) = length (collection w)
  /\ book_dir (snd (updateBook index body w)) = book_dir w.
Proof.
  destruct body as [|data]; [split; reflexivity|].
  destruct (validateBookData data) as [[|e errs]|e] eqn:Hv.
  - rewrite (updateBook_valid _ _ _ Hv).
    destruct (js_lt index (Int 0) || js_ge index (len (collection w))) eqn:Hb.
    { cbn [snd]. now rewrite collection_after_read, after_read_book_dir. }
    destruct (json_ro w).
    { cbn [snd]. unfold collection. fields.
      now rewrite after_read_book_json, after_read_book_dir. }
    cbn [snd]. split; [|fields; apply after_read_book_dir].
    change (collection (set_book_json
                          (Doc (array_set index data (collection w)))
                          (after_read w)))
      with (array_set index data (collection w)).
    destruct index as [|z]; [reflexivity|].
    unfold array_set. apply orb_false_iff in Hb as [Hlt Hge].
    unfold js_lt in Hlt. unfold js_ge, len in Hge.
    rewrite Hlt.
    destruct (Z.ltb_spec z (Z.of_nat (length (collection w))));
      [apply length_insert|].
    apply Z.leb_gt in Hge. lia.
  - rewrite (updateBook_invalid _ _ (e :: errs) _ Hv) by discriminate.
    split; reflexivity.
  - rewrite (updateBook_throws _ _ _ _ Hv). split; reflexivity.
Qed.

(** X11. Alignment, every record having a blob file under the name of
    its position, is kept by a create that answers 201, by every update
    and by every content write, whatever they answer. *)
Theorem alignment_kept_by_create_update_write (w : world) :
  aligned w ->
  (forall body,
     status_of (fst (createBook body w)) = Some 201 ->
     aligned (snd (createBook body w)))
  /\ (forall index body, aligned (snd (updateBook index body w)))
  /\ (forall index body, aligned (snd (writeContent index body w))).
Proof.
  intros Ha. split; [|split].
  - intros body.
    destruct (createBook_cases body w)
      as [C|[(? & _ & C)|[C|[(data & C)|(? & C)]]]]; rewrite C;
      try (statuses; discriminate).
    intros _. cbn [snd]. intros i.
    replace (collection _) with (collection w ++ [data]) by reflexivity.
    rewrite length_app. simpl. intros Hi. fields.
    rewrite <- blob_of_ordinal.
    destruct (decide (i = length (collection w))) as [->|Hne].
    + rewrite lookup_insert_eq. eauto.
    + rewrite lookup_insert_ne by (apply blob_of_ne; congruence).
      apply Ha. lia.
  - intros index body i.
    destruct (updateBook_keeps_length index body w) as [-> ->]. apply Ha.
  - intros index body.
    destruct (writeContent_cases index body w)
      as [C|[C|[C|(s & _ & C)]]]; rewrite C; try exact Ha.
    intros i Hi. fields.
    destruct (decide (bookFilePath (js_add index (Int 1)) = blob_of i))
      as [->|Hne].
    + rewrite lookup_insert_eq. eauto.
    + rewrite lookup_insert_ne by exact Hne. apply Ha, Hi.
Qed.

Lemma three_books_aligned : aligned three_books.
Proof.
  intros i Hi. simpl in Hi.
  destruct i as [|[|[|i]]]; [| | |lia]; eexists; vm_compute; reflexivity.
Qed.

Lemma alignment_kept_by_create_update_write_witness :
  aligned (snd (createBook (Doc bookB) three_books))
  /\ aligned (snd (updateBook (Int 1) (Doc bookA) three_books))
  /\ aligned (snd (writeContent (Int 7) (Doc (JObj [("content", JStr "X")]))
                                three_books)).
Proof.
  destruct (alignment_kept_by_create_update_write three_books
              three_books_aligned) as (Hc & Hu & Hw).
  split; [|split].
  - apply Hc. vm_compute. reflexivity.
  - apply Hu.
  - apply Hw.
Defined.

(** X12. Deleting the last record keeps alignment; deleting any other
    record breaks it: the record that moves down to the deleted position
    has no blob under that position's name. *)
Theorem alignment_and_delete (z : Z) (w : world) :
  in_range z (collection w) ->
  json_ro w = false ->
  removable (bookFilePath (Int (z + 1))) w = true ->
  ((Z.to_nat z + 1 < length (collection w))%nat ->
     ~ aligned (snd (deleteBook (Int z) w)))
  /\ ((Z.to_nat z + 1 = length (collection w))%nat -> aligned w ->
      aligned (snd (deleteBook (Int z) w))).
Proof.
  intros Hin Hro Hrm.
  rewrite (deleteBook_in_range _ _ Hin Hro Hrm). cbn [snd].
  assert (Hcol : collection
            (set_book_dir (delete (bookFilePath (Int (z + 1))) (book_dir w))
               (set_book_json (Doc (delete (Z.to_nat z) (collection w))) w))
          = delete (Z.to_nat z) (collection w)) by reflexivity.
  assert (Hlen : (length (delete (Z.to_nat z) (collection w))
                  = length (collection w) - 1)%nat).
  { apply length_delete, lookup_lt_is_Some. unfold in_range in Hin. lia. }
  assert (Hz : blob_of (Z.to_nat z) = bookFilePath (Int (z + 1))).
  { unfold blob_of. do 2 f_equal. unfold in_range in Hin. lia. }
  split.
  - intros Hlt Ha. destruct (Ha (Z.to_nat z)) as [s Hs].
    + rewrite Hcol, Hlen. lia.
    + revert Hs. fields. rewrite Hz, lookup_delete_eq. discriminate.
  - intros Hlast Ha i. rewrite Hcol, Hlen. intros Hi. fields.
    rewrite <- Hz, lookup_delete_ne by (apply blob_of_ne; lia).
    apply Ha. lia.
Qed.

Lemma alignment_and_delete_witness :
  ~ aligned (snd (deleteBook (Int 0) three_books))
  /\ aligned (snd (deleteBook (Int 2) three_books)).
Proof.
  split.
  - apply (alignment_and_delete 0 three_books).
    + unfold in_range. simpl. lia.
    + reflexivity.
    + vm_compute. reflexivity.
    + simpl. lia.
  - apply (alignment_and_delete 2 three_books).
    + unfold in_range. simpl. lia.
    + reflexivity.
    + vm_compute. reflexivity.
    + reflexivity.
    + exact three_books_aligned.
Defined.

(** X13. On an aligned disk with working stores, deleting a record that
    is not the last and then creating a record overwrites the blob of the
    record that was last: the new record gets the ordinal the last one
    had, and the text that was there is replaced by the placeholder. *)
Theorem create_after_delete_overwrites_last_blob
    (z : Z) (data : json) (w : world) :
  aligned w ->
  json_ro w = false -> dir_ro w = false ->
  validateBookData data = Ok [] ->
  in_range z (collection w) ->
  (Z.to_nat z + 1 < length (collection w))%nat ->
  let n := length (collection w) in
  let w1 := snd (deleteBook (Int z) w) in
  let w2 := snd (createBook (Doc data) w1) in
  (exists s, book_dir w !! blob_of (n - 1) = Some (File s))
  /\ last (collection w1) = last (collection w)
  /\ last (collection w2) = Some data
  /\ length (collection w2) = n
  /\ book_dir w2 !! blob_of (n - 1) = Some (File (placeholder n)).
Proof.
  intros Ha Hro Hdir Hv Hin Hlt. cbv zeta.
  assert (Hz : blob_of (Z.to_nat z) = bookFilePath (Int (z + 1))).
  { unfold blob_of. do 2 f_equal. unfold in_range in Hin. lia. }
  assert (Hrm : removable (bookFilePath (Int (z + 1))) w = true).
  { unfold removable. rewrite <- Hz.
    destruct (Ha (Z.to_nat z)) as [s ->]; [lia|]. now rewrite Hdir. }
  rewrite (deleteBook_in_range _ _ Hin Hro Hrm). cbn [snd].
  set (w1 := set_book_dir _ _).
  assert (Hcol1 : collection w1 = delete (Z.to_nat z) (collection w))
    by reflexivity.
  assert (Hlen1 : S (length (collection w1)) = length (collection w)).
  { rewrite Hcol1, length_delete by (apply lookup_lt_is_Some; lia). lia. }
  destruct (Ha (length (collection w) - 1)%nat) as [s Hs]; [lia|].
  assert (Hs1 : book_dir w1 !! blob_of (length (collection w) - 1)
                = Some (File s)).
  { subst w1. fields. rewrite <- Hz.
    rewrite lookup_delete_ne by (apply blob_of_ne; lia). exact Hs. }
  rewrite (createBook_valid _ _ Hv). cbv zeta.
  replace (json_ro w1) with false by (symmetry; exact Hro).
  rewrite Hlen1.
  assert (Hname : bookFilePath (Int (Z.of_nat (length (collection w))))
                  = blob_of (length (collection w) - 1)).
  { unfold blob_of. do 2 f_equal. lia. }
  rewrite Hname.
  assert (Hw : writable (blob_of (length (collection w) - 1)) w1 = true).
  { unfold writable. rewrite Hs1.
    replace (dir_ro w1) with false by (symmetry; exact Hdir). reflexivity. }
  rewrite Hw. cbn [snd].
  split; [eauto|]. split; [|split; [|split]].
  - rewrite Hcol1.
    rewrite !last_lookup, list_lookup_delete_ge
      by (rewrite length_delete by (apply lookup_lt_is_Some; lia); lia).
    rewrite length_delete by (apply lookup_lt_is_Some; lia).
    f_equal. lia.
  - replace (collection _) with (collection w1 ++ [data]) by reflexivity.
    apply last_snoc.
  - replace (collection _) with (collection w1 ++ [data]) by reflexivity.
    rewrite length_app. simpl. lia.
  - fields. apply lookup_insert_eq.
Qed.

Lemma create_after_delete_overwrites_last_blob_witness :
  book_dir (snd (createBook (Doc bookB) (snd (deleteBook (Int 0) three_books))))
    !! "book_3.txt"
  = Some (File "This is book NO.3").
Proof.
  destruct (create_after_delete_overwrites_last_blob 0 bookB three_books)
    as (_ & _ & _ & _ & H).
  - exact three_books_aligned.
  - reflexivity.
  - reflexivity.
  - reflexivity.
  - unfold in_range. simpl. lia.
  - simpl. lia.
  - exact H.
Defined.

(** X14. Creating a record and then deleting the position it got undoes
    the creation: the collection is the one before, the delete answers
    with the record, and the blob directory is the one before without the
    blob of that position (so exactly the one before when no stale blob
    lay there). *)
Theorem create_then_delete_restores (data : json) (w : world) :
  validateBookData data = Ok [] ->
  json_ro w = false -> dir_ro w = false ->
  let n := length (collection w) in
  book_dir w !! blob_of n <> Some Dir ->
  let w1 := snd (createBook (Doc data) w) in
  exists w2,
    deleteBook (Int (Z.of_nat n)) w1
    = (Ok (success_data 200 "书籍删除成功" (Some data)), w2)
    /\ collection w2 = collection w
    /\ book_dir w2 = delete (blob_of n) (book_dir w)
    /\ (book_dir w !! blob_of n = None -> book_dir w2 = book_dir w).
Proof.
  intros Hv Hro Hdir. cbv zeta. intros Hnd.
  rewrite (createBook_valid _ _ Hv). cbv zeta. rewrite Hro.
  rewrite <- blob_of_ordinal.
  assert (Hw : writable (blob_of (length (collection w))) w = true).
  { unfold writable. rewrite Hdir.
    destruct (book_dir w !! blob_of (length (collection w))) as [[?|]|];
      [reflexivity|contradiction|reflexivity]. }
  rewrite Hw. cbn [snd]. set (w1 := set_book_dir _ _).
  assert (Hcol1 : collection w1 = collection w ++ [data]) by reflexivity.
  assert (Hin : in_range (Z.of_nat (length (collection w))) (collection w1)).
  { unfold in_range. rewrite Hcol1, length_app. simpl. lia. }
  assert (Hname : bookFilePath (Int (Z.of_nat (length (collection w)) + 1))
                  = blob_of (length (collection w))) by reflexivity.
  assert (Hrm : removable
                  (bookFilePath (Int (Z.of_nat (length (collection w)) + 1)))
                  w1 = true).
  { unfold removable. rewrite Hname. subst w1. fields.
    rewrite lookup_insert_eq, after_read_dir_ro, Hdir. reflexivity. }
  assert (Hro1 : json_ro w1 = false).
  { subst w1. fields. now rewrite after_read_json_ro. }
  rewrite (deleteBook_in_range _ _ Hin Hro1 Hrm).
  rewrite Hname, Hcol1, Nat2Z.id.
  rewrite (list_lookup_middle (collection w) [] data) by reflexivity.
  eexists. split; [reflexivity|].
  assert (Hdel : delete (length (collection w)) (collection w ++ [data])
                 = collection w).
  { rewrite delete_middle. apply app_nil_r. }
  split; [|split].
  - unfold collection at 1. fields. now rewrite Hdel.
  - subst w1. fields. apply delete_insert_eq.
  - intros Hnone. subst w1. fields.
    rewrite delete_insert_eq. apply delete_id, Hnone.
Qed.

Lemma create_then_delete_restores_witness :
  exists w2,
    deleteBook (Int 3) (snd (createBook (Doc bookB) three_books))
    = (Ok (success_data 200 "书籍删除成功" (Some bookB)), w2)
    /\ collection w2 = collection three_books
    /\ book_dir w2 = book_dir three_books.
Proof.
  destruct (create_then_delete_restores bookB three_books)
    as (w2 & Hrun & Hcol & _ & Hdir); try reflexivity.
  - vm_compute. discriminate.
  - exists w2. split; [exact Hrun|]. split; [exact Hcol|].
    apply Hdir. vm_compute. reflexivity.
Defined.

(** ** Candidates that are no records *)

Lemma empty_text_outcomes v :
  (exists c, empty_text v = Ok c) \/ empty_text v = Throw TypeError.
Proof.
  unfold empty_text. destruct (negb (truthy v)); [eauto|].
  destruct v as [[| | |s| |]|]; eauto.
Qed.

Lemma empty_text_not_trimmable v :
  not_trimmable v = true -> empty_text v = Throw TypeError.
Proof.
  unfold not_trimmable, empty_text. intros H.
  apply andb_true_iff in H as [-> H]. simpl.
  destruct v as [[| | |s| |]|]; try reflexivity; discriminate.
Qed.

(** X16. When the body parses to [null], or when the [book], [author] or
    [summary] of the candidate is a truthy value that is no string (a
    number other than 0, [true], an array, an object), the validator
    throws a [TypeError] instead of returning violations, and both create
    and update answer 400 "invalid JSON" and leave the disk alone. *)
Theorem untrimmable_field_reported_as_invalid_json (data : json) :
  data = JNull
  \/ not_trimmable (prop data "book") = true
  \/ not_trimmable (prop data "author") = true
  \/ not_trimmable (prop data "summary") = true ->
  validateBookData data = Throw TypeError
  /\ (forall w, createBook (Doc data) w = (Ok invalid_json, w))
  /\ (forall index w, updateBook index (Doc data) w = (Ok invalid_json, w)).
Proof.
  intros H.
  assert (Hv : validateBookData data = Throw TypeError).
  { destruct H as [->|H]; [reflexivity|].
    assert (Hn : data <> JNull).
    { intros ->. simpl in H. intuition discriminate. }
    unfold validateBookData. rewrite !(getProp_prop _ _ Hn). simpl res_bind.
    destruct H as [H|[H|H]]; apply empty_text_not_trimmable in H.
    - rewrite H. reflexivity.
    - destruct (empty_text_outcomes (prop data "book")) as [[c ->]| ->];
        [|reflexivity].
      simpl res_bind. rewrite H. reflexivity.
    - destruct (empty_text_outcomes (prop data "book")) as [[c ->]| ->];
        [|reflexivity].
      simpl res_bind.
      destruct (empty_text_outcomes (prop data "author")) as [[c' ->]| ->];
        [|reflexivity].
      simpl res_bind. rewrite H. reflexivity. }
  split; [exact Hv|]. split.
  - intros w. eapply createBook_throws, Hv.
  - intros index w. eapply updateBook_throws, Hv.
Qed.

Lemma untrimmable_field_reported_as_invalid_json_witness :
  validateBookData (JObj [("book", JStr "A"); ("author", JNum 7)])
  = Throw TypeError
  /\ createBook (Doc JNull) three_books = (Ok invalid_json, three_books).
Proof.
  split.
  - apply (untrimmable_field_reported_as_invalid_json
             (JObj [("book", JStr "A"); ("author", JNum 7)])).
    right; right; left. reflexivity.
  - apply (untrimmable_field_reported_as_invalid_json JNull).
    left. reflexivity.
Defined.

(** X17. The date rule tests what the value prints as, not that it is a
    string: a [subDate] that is an array holding one string gets the
    verdict of that string, so a record whose date is such an array
    passes validation and is persisted with the array. *)
Theorem date_in_an_array_passes_as_the_date (b a s d : string) (w : world) :
  let boxed := JObj [("book", JStr b); ("author", JStr a);
                     ("summary", JStr s); ("subDate", JArr [JStr d])] in
  validateBookData boxed = validateBookData (book_of b a s d)
  /\ (validateBookData (book_of b a s d) = Ok [] ->
      json_ro w = false ->
      collection (snd (createBook (Doc boxed) w)) = collection w ++ [boxed]).
Proof.
  cbv zeta.
  assert (Hv : validateBookData
                 (JObj [("book", JStr b); ("author", JStr a);
                        ("summary", JStr s); ("subDate", JArr [JStr d])])
               = validateBookData (book_of b a s d)).
  { unfold validateBookData, book_of, getProp. simpl assoc. simpl res_bind.
    destruct (empty_text (Some (JStr b))); [|reflexivity]. simpl res_bind.
    destruct (empty_text (Some (JStr a))); [|reflexivity]. simpl res_bind.
    destruct (empty_text (Some (JStr s))); [|reflexivity]. simpl res_bind.
    destruct d as [|c d]; reflexivity. }
  split; [exact Hv|].
  intros Hok Hro. rewrite <- Hv in Hok.
  rewrite (createBook_valid _ _ Hok). cbv zeta. rewrite Hro.
  destruct (writable _ w); reflexivity.
Qed.

Lemma date_in_an_array_passes_as_the_date_witness :
  collection
    (snd (createBook
            (Doc (JObj [("book", JStr "A"); ("author", JStr "B");
                        ("summary", JStr "C");
                        ("subDate", JArr [JStr "2024-01-01"])]))
            empty_disk))
  = [JObj [("book", JStr "A"); ("author", JStr "B"); ("summary", JStr "C");
           ("subDate", JArr [JStr "2024-01-01"])]].
Proof.
  apply (date_in_an_array_passes_as_the_date "A" "B" "C" "2024-01-01" empty_disk);
    reflexivity.
Defined.

(** ** A blob that cannot be read *)

(** X18. When the blob of a position exists but cannot be read or
    written as a file, the two read modes disagree: the blocking read
    answers 500, the non-blocking read answers 404, and a content write
    answers 500; none of them changes the disk. *)
Theorem unreadable_blob_answers (index : jsnum) (w : world) :
  book_dir w !! bookFilePath (js_add index (Int 1)) = Some Dir ->
  readContent index (Some "sync") w = (Ok (failure 500 "读取失败"), w)
  /\ (forall mode, mode_used mode = "async" ->
        readContent index mode w
        = (Ok (failure 404 "书籍文件不存在或读取失败"), w))
  /\ (forall kvs s, assoc "content" kvs = Some (JStr s) -> s <> "" ->
        writeContent index (Doc (JObj kvs)) w
        = (Ok (failure 500 "写入失败"), w)).
Proof.
  intros E. split; [|split].
  - rewrite readContent_reply, E. reflexivity.
  - intros mode Hm. rewrite readContent_reply, E, Hm. reflexivity.
  - intros kvs s Hc Hs. rewrite (writeContent_string _ _ _ _ Hc Hs).
    unfold writable. rewrite E, andb_false_r. reflexivity.
Qed.

Lemma unreadable_blob_answers_witness :
  readContent (Int 0) (Some "sync") dir_at_1
  = (Ok (failure 500 "读取失败"), dir_at_1)
  /\ readContent (Int 0) None dir_at_1
     = (Ok (failure 404 "书籍文件不存在或读取失败"), dir_at_1).
Proof.
  destruct (unreadable_blob_answers (Int 0) dir_at_1) as (Hs & Ha & _).
  - vm_compute. reflexivity.
  - split; [exact Hs|]. apply Ha. reflexivity.
Defined.

(** ** The index in the path *)

(** X1. A path that matches the pattern of the content routes carries a
    run of digits; when the run has at most 15 digits (a path of at most
    34 characters) the index the content handlers compute is the
    non-negative integer the digits denote, a safe integer below 10^15,
    never [NaN]. *)
Theorem content_routes_get_an_integer (p : string) :
  content_path p = true ->
  (String.length p <= 34)%nat ->
  exists z, 0 <= z < 10 ^ 15 /\ safe z
            /\ path_index p = Int z /\ path_index p <> NaN.
Proof.
  intros H Hlen. destruct (content_path_shape p H) as (ds & Hd & Hp & Hn).
  unfold path_index. rewrite Hn.
  destruct (parseInt_digits_bound ds Hd) as (z & Hz & ->).
  assert (Hds : (String.length ds <= 15)%nat).
  { rewrite Hp, !length_append in Hlen. simpl in Hlen. lia. }
  assert (Hpow : 10 ^ Z.of_nat (String.length ds) <= 10 ^ 15)
    by (apply Z.pow_le_mono_r; lia).
  exists z. split; [lia|]. split; [unfold safe; lia|].
  split; [reflexivity|discriminate].
Qed.

Lemma content_routes_get_an_integer_witness :
  exists z, 0 <= z < 10 ^ 15 /\ safe z
            /\ path_index "/api/books/042/content" = Int z
            /\ path_index "/api/books/042/content" <> NaN.
Proof.
  apply (content_routes_get_an_integer "/api/books/042/content").
  - reflexivity.
  - simpl. lia.
Defined.

(** X2. The record routes come first and match by prefix: a DELETE on a
    content path deletes the record at that position, and a PUT on a
    content path updates it; only GET and POST reach the content
    handlers. *)
Theorem content_path_under_other_methods (p : string) (q : option string)
    (b : text json) :
  content_path p = true ->
  server (Request "DELETE" p q b) = deleteBook (path_index p)
  /\ server (Request "PUT" p q b) = updateBook (path_index p) b
  /\ server (Request "GET" p q b) = readContent (path_index p) q
  /\ server (Request "POST" p q b) = writeContent (path_index p) b.
Proof.
  intros H. repeat split; rewrite (route_content _ _ _ _ H); reflexivity.
Qed.

Lemma content_path_under_other_methods_witness :
  server (Request "DELETE" "/api/books/1/content" None Garbled) three_books
  = deleteBook (Int 1) three_books.
Proof.
  destruct (content_path_under_other_methods
              "/api/books/1/content" None Garbled) as (H & _);
    [reflexivity|].
  rewrite H. reflexivity.
Defined.

(** *** Printing an index and parsing it back *)

Lemma read_digits_pretty_go x :
  (0 < x)%N ->
  forall s, read_digits 10 (pretty_N_go x s) None
            = read_digits 10 s (Some (Z.of_N x)).
Proof.
  induction (N.lt_wf_0 x) as [x _ IH]. intros Hx s.
  rewrite pretty_N_go_step by exact Hx.
  assert (Hmod : (x `mod` 10 < 10)%N) by (apply N.mod_lt; lia).
  destruct (digit_val_pretty _ Hmod) as [Hval _].
  destruct (decide (x < 10)%N) as [Hsmall|Hbig].
  - rewrite N.div_small, pretty_N_go_0 by exact Hsmall.
    simpl read_digits. rewrite Hval. simpl default.
    do 2 f_equal. rewrite N.mod_small by exact Hsmall. lia.
  - rewrite IH.
    + simpl read_digits. rewrite Hval. simpl default. do 2 f_equal.
      rewrite (N.div_mod x 10) at 3 by lia. lia.
    + apply N.div_lt; lia.
    + apply N.div_str_pos. lia.
Qed.

Lemma parseInt_of_digits ds m :
  Str.digits1 ds = true -> read_digits 10 ds None = Some m ->
  parseInt ds = Int m.
Proof.
  unfold Str.digits1. destruct ds as [|c r]; [discriminate|].
  simpl negb. rewrite andb_true_l. intros Hd Hr.
  assert (Hc : Str.digit c = true)
    by (simpl in Hd; now apply andb_true_iff in Hd).
  unfold parseInt. rewrite (trimStart_digit _ _ Hc), (read_sign_digit _ _ Hc).
  rewrite (read_radix_digits _ Hd), Hr. f_equal. lia.
Qed.

Lemma pretty_positive_digits p :
  Str.digits1 (pretty (Zpos p)) = true
  /\ read_digits 10 (pretty (Zpos p)) None = Some (Zpos p).
Proof.
  change (pretty (Zpos p)) with (pretty_N_go (Npos p) "").
  destruct (all_digits_pretty_go (Npos p) "") as [Hd Hne];
    [reflexivity|right; lia|].
  split.
  - unfold Str.digits1. now rewrite Hd, Hne.
  - rewrite read_digits_pretty_go by lia. reflexivity.
Qed.

Lemma parseInt_reads_back (z : Z) :
  parseInt (num_to_string (Int z)) = Int z.
Proof.
  unfold num_to_string. destruct z as [|p|p].
  - reflexivity.
  - destruct (pretty_positive_digits p) as [Hd Hr].
    apply parseInt_of_digits; assumption.
  - destruct (pretty_positive_digits p) as [Hd Hr].
    change (pretty (Zneg p)) with (String "-" (pretty (Zpos p))).
    remember (pretty (Zpos p)) as ds eqn:E. clear E.
    unfold parseInt.
    replace (Str.trimStart (String "-" ds)) with (String "-" ds)
      by (destruct ds as [|c2 [|c3 r]]; reflexivity).
    change (read_sign (String "-" ds)) with (-1, ds).
    unfold Str.digits1 in Hd. apply andb_true_iff in Hd as [_ Hd].
    rewrite (read_radix_digits _ Hd), Hr. reflexivity.
Qed.

(** *** The paths the front end builds *)

Lemma split_lacks sep s : lacks sep s = true -> Str.split sep s = [s].
Proof.
  induction s as [|c s IH]; [reflexivity|]. simpl.
  intros H. apply andb_true_iff in H as [Hc Hs].
  apply negb_true_iff in Hc. rewrite Hc, (IH Hs). reflexivity.
Qed.

Lemma split_app_sep sep a r :
  lacks sep a = true ->
  Str.split sep (a +:+ String sep r) = a :: Str.split sep r.
Proof.
  induction a as [|c a IH]; simpl.
  - intros _. now rewrite Ascii.eqb_refl.
  - intros H. apply andb_true_iff in H as [Hc Ha].
    apply negb_true_iff in Hc. rewrite Hc, (IH Ha). reflexivity.
Qed.

Lemma split_api_books rest :
  Str.split "/" ("/api/books/" +:+ rest)
  = "" :: "api" :: "books" :: Str.split "/" rest.
Proof.
  change ("/api/books/" +:+ rest)
    with ("" +:+ String "/" ("api" +:+ String "/" ("books" +:+ String "/" rest))).
  rewrite !split_app_sep by reflexivity. reflexivity.
Qed.

Lemma all_digits_lacks ds : Str.all_digits ds = true -> lacks "/" ds = true.
Proof.
  induction ds as [|c ds IH]; [reflexivity|]. simpl.
  intros H. apply andb_true_iff in H as [Hc Hd]. rewrite (IH Hd), andb_true_r.
  digit_case Hc; reflexivity.
Qed.

Lemma append_assoc (a b c : string) : (a +:+ b) +:+ c = a +:+ (b +:+ c).
Proof.
  induction a as [|x a IH]; [reflexivity|].
  change (String x ((a +:+ b) +:+ c) = String x (a +:+ (b +:+ c))).
  now rewrite IH.
Qed.

Lemma prefix_append a b : String.prefix a (a +:+ b) = true.
Proof.
  induction a as [|c a IH]; [destruct b; reflexivity|]. simpl.
  destruct (ascii_dec c c); [exact IH|congruence].
Qed.

Lemma book_url_index (n : nat) :
  Str.startsWith (UI.book_url (Z.of_nat n)) "/api/books/" = true
  /\ path_index (UI.book_url (Z.of_nat n)) = Int (Z.of_nat n).
Proof.
  split; [apply prefix_append|].
  unfold path_index, UI.book_url. rewrite split_api_books.
  pose proof (index_digits n) as Hd. unfold Str.digits1 in Hd.
  apply andb_true_iff in Hd as [_ Hd].
  rewrite (split_lacks _ _ (all_digits_lacks _ Hd)). simpl nth.
  apply parseInt_reads_back.
Qed.

Lemma content_url_index (n : nat) :
  content_path (UI.book_url (Z.of_nat n) +:+ "/content") = true
  /\ path_index (UI.book_url (Z.of_nat n) +:+ "/content") = Int (Z.of_nat n).
Proof.
  pose proof (index_digits n) as Hd1.
  assert (Hd : Str.all_digits (num_to_string (Int (Z.of_nat n))) = true)
    by (unfold Str.digits1 in Hd1; now apply andb_true_iff in Hd1).
  assert (Hs : Str.split "/" (UI.book_url (Z.of_nat n) +:+ "/content")
               = [""; "api"; "books"; num_to_string (Int (Z.of_nat n));
                  "content"]).
  { unfold UI.book_url. rewrite append_assoc, split_api_books.
    change (num_to_string (Int (Z.of_nat n)) +:+ "/content")
      with (num_to_string (Int (Z.of_nat n)) +:+ String "/" "content").
    rewrite split_app_sep by (apply all_digits_lacks, Hd). reflexivity. }
  split.
  - unfold content_path. rewrite Hs, Hd1. reflexivity.
  - unfold path_index. rewrite Hs. simpl nth. apply parseInt_reads_back.
Qed.

(** X19. Printing a safe integer as a template literal does and reading
    it with [parseInt] gives the integer back; so the index the front end
    puts in a path, [/api/books/<index>] or
    [/api/books/<index>/content], is the index the server computes from
    that path, and the content path matches the pattern of the content
    routes. *)
Theorem index_survives_the_path :
  (forall z : Z, safe z -> parseInt (num_to_string (Int z)) = Int z)
  /\ (forall n : nat, safe (Z.of_nat n) ->
        path_index (UI.book_url (Z.of_nat n)) = Int (Z.of_nat n)
        /\ content_path (UI.book_url (Z.of_nat n) +:+ "/content") = true
        /\ path_index (UI.book_url (Z.of_nat n) +:+ "/content")
           = Int (Z.of_nat n)).
Proof.
  split; [intros z _; apply parseInt_reads_back|].
  intros n _. split; [apply book_url_index|apply content_url_index].
Qed.

Lemma index_survives_the_path_witness :
  parseInt "9007199254740991" = Int 9007199254740991
  /\ parseInt "-9007199254740991" = Int (-9007199254740991)
  /\ path_index "/api/books/41" = Int 41
  /\ content_path "/api/books/41/content" = true
  /\ path_index "/api/books/41/content" = Int 41.
Proof.
  destruct index_survives_the_path as [Hz Hn].
  split; [apply (Hz (2 ^ 53 - 1)); unfold safe; lia|].
  split; [apply (Hz (- (2 ^ 53 - 1))); unfold safe; lia|].
  apply (Hn 41%nat). unfold safe. lia.
Defined.

Lemma front_end_requests_reach w (n : nat) content req :
  UI.writeContent (Z.of_nat n) content = Some req ->
  server req w
  = writeContent (Int (Z.of_nat n)) (Doc (JObj [("content", JStr content)])) w
  /\ writeContent (Int (Z.of_nat n)) (Doc (JObj [("content", JStr content)])) w
     = if writable (bookFilePath (Int (Z.of_nat n + 1))) w
       then (Ok write_ok,
             set_book_dir (<[bookFilePath (Int (Z.of_nat n + 1))
                             := File (Str.toWellFormed content)]>
                             (book_dir w)) w)
       else (Ok (failure 500 "写入失败"), w).
Proof.
  destruct (content_url_index n) as [Hc Hci].
  unfold UI.writeContent.
  destruct (Str.is_empty (Str.trim content)) eqn:E; [discriminate|].
  intros [= <-]. split.
  - rewrite (route_content _ _ _ _ Hc).
    change (String.eqb "POST" "OPTIONS") with false.
    change (String.eqb "POST" "DELETE") with false.
    change (String.eqb "POST" "PUT") with false.
    change (String.eqb "POST" "GET") with false.
    change (String.eqb "POST" "POST") with true.
    cbv iota. now rewrite Hci.
  - change (Int (Z.of_nat n + 1)) with (js_add (Int (Z.of_nat n)) (Int 1)).
    apply (writeContent_string (Int (Z.of_nat n))
                               [("content", JStr content)] content w);
      [reflexivity|]. intros ->. discriminate E.
Qed.

(** X20. The requests of the front end reach the handler they are meant
    for, at the position they were built for: the add form reaches
    create, the edit form update, a confirmed delete the delete handler
    (an unconfirmed one sends nothing), and a content write the content
    handler. *)
Theorem front_end_requests_reach_their_handlers
    (n : nat) (b a s d content : string) :
  server (UI.addBook b a s d) = createBook (Doc (UI.formData b a s d))
  /\ server (UI.editBook (Z.of_nat n) b a s d)
     = updateBook (Int (Z.of_nat n)) (Doc (UI.formData b a s d))
  /\ UI.deleteBook (Z.of_nat n) false = None
  /\ (exists req, UI.deleteBook (Z.of_nat n) true = Some req
                  /\ server req = deleteBook (Int (Z.of_nat n)))
  /\ (forall req, UI.writeContent (Z.of_nat n) content = Some req ->
        server req
        = writeContent (Int (Z.of_nat n))
                       (Doc (JObj [("content", JStr content)]))).
Proof.
  destruct (book_url_index n) as [Hp Hi].
  destruct (content_url_index n) as [Hc Hci].
  split; [reflexivity|]. split; [|split; [reflexivity|split]].
  - unfold UI.editBook. rewrite route_PUT by (try reflexivity; exact Hp).
    cbn [pathname body]. now rewrite Hi.
  - eexists. split; [reflexivity|].
    rewrite route_DELETE by (try reflexivity; exact Hp).
    cbn [pathname]. now rewrite Hi.
  - intros req. unfold UI.writeContent.
    destruct (Str.is_empty (Str.trim content)); [discriminate|].
    intros [= <-]. rewrite (route_content _ _ _ _ Hc).
    change (String.eqb "POST" "OPTIONS") with false.
    change (String.eqb "POST" "DELETE") with false.
    change (String.eqb "POST" "PUT") with false.
    change (String.eqb "POST" "GET") with false.
    change (String.eqb "POST" "POST") with true.
    cbv iota. now rewrite Hci.
Qed.

Lemma front_end_requests_reach_their_handlers_witness :
  server (Request "POST" "/api/books/2/content" None
                  (Doc (JObj [("content", JStr "X")])))
  = writeContent (Int 2) (Doc (JObj [("content", JStr "X")])).
Proof.
  destruct (front_end_requests_reach_their_handlers 2 "" "" "" "" "X")
    as (_ & _ & _ & _ & H).
  apply H. reflexivity.
Defined.

(** *** What the forms send *)

Lemma validate_candidate data :
  candidate data = true -> validateBookData data = Ok (violations data).
Proof.
  intros Hc.
  assert (Hn : data <> JNull) by (destruct data; [discriminate|congruence..]).
  assert (Ht : forallb (fun k => textual (prop data k))
                       ["book"; "author"; "summary"; "subDate"] = true)
    by (destruct data; [discriminate|exact Hc..]).
  simpl in Ht. rewrite !andb_true_iff in Ht.
  destruct Ht as (Hb & Ha & Hs & Hd & _).
  unfold validateBookData.
  rewrite !(getProp_prop _ _ Hn). simpl res_bind.
  rewrite (empty_text_textual _ Hb). simpl res_bind.
  rewrite (empty_text_textual _ Ha). simpl res_bind.
  rewrite (empty_text_textual _ Hs). simpl res_bind.
  rewrite (bad_date_textual _ Hd). simpl res_bind.
  unfold violations, rules. simpl List.filter.
  rewrite !field_prop.
  repeat match goal with
         | |- context [nonempty_after_trim ?x] =>
             destruct (nonempty_after_trim x)
         | |- context [matches_date ?x] => destruct (matches_date x)
         end; reflexivity.
Qed.

(** X21. What the add and edit forms send is always a candidate record,
    four strings under [book], [author], [summary], [subDate]: the
    validator never throws on it, and when a rule is violated the server
    answers the form with status 400 and the list of the violations, one
    string for each in rule order, at any position, and leaves the disk
    alone. *)
Theorem forms_get_their_violations (n : nat) (b a s d : string) (w : world) :
  let data := UI.formData b a s d in
  let answer :=
    Reply 400 (JObj [("success", JBool false);
                     ("errors", JArr (map JStr (violations data)))]) in
  validateBookData data = Ok (violations data)
  /\ (violations data <> [] ->
      server (UI.addBook b a s d) w = (Ok answer, w)
      /\ server (UI.editBook (Z.of_nat n) b a s d) w = (Ok answer, w)).
Proof.
  cbv zeta.
  assert (Hv : validateBookData (UI.formData b a s d)
               = Ok (violations (UI.formData b a s d)))
    by (apply validate_candidate; reflexivity).
  split; [exact Hv|]. intros Hne. split.
  - change (server (UI.addBook b a s d) w)
      with (createBook (Doc (UI.formData b a s d)) w).
    rewrite (createBook_invalid _ _ _ Hv Hne). reflexivity.
  - destruct (book_url_index n) as [Hp Hi].
    unfold UI.editBook. rewrite route_PUT by (try reflexivity; exact Hp).
    cbn [pathname body]. rewrite Hi.
    rewrite (updateBook_invalid _ _ _ _ Hv Hne). reflexivity.
Qed.

Lemma forms_get_their_violations_witness :
  server (UI.addBook " " "B" "" "2024-1-1") three_books
  = (Ok (Reply 400 (JObj [("success", JBool false);
                          ("errors", JArr [JStr msg_book; JStr msg_summary;
                                           JStr msg_subDate])])),
     three_books).
Proof.
  destruct (forms_get_their_violations 0 " " "B" "" "2024-1-1" three_books)
    as (_ & H).
  destruct H as [Hadd _]; [discriminate|]. exact Hadd.
Defined.

(** X22. The front end is stricter than the server about content: what
    it sends has passed [trim] and so is never turned down as empty,
    while the server, which only tests for the empty string, writes
    white space that the front end would not send. *)
Theorem content_guard_of_front_end_and_server
    (n : nat) (content : string) (w : world) :
  (forall req, UI.writeContent (Z.of_nat n) content = Some req ->
     content <> ""
     /\ fst (server req w) <> Ok (failure 400 "内容不能为空")
     /\ (status_of (fst (server req w)) = Some 200
         \/ status_of (fst (server req w)) = Some 500))
  /\ (content <> "" -> Str.blank content = true ->
      writable (bookFilePath (Int (Z.of_nat n + 1))) w = true ->
      UI.writeContent (Z.of_nat n) content = None
      /\ book_dir (snd (writeContent (Int (Z.of_nat n))
                          (Doc (JObj [("content", JStr content)])) w))
           !! bookFilePath (Int (Z.of_nat n + 1))
         = Some (File content)).
Proof.
  split.
  - intros req Hreq.
    assert (Hne : content <> "").
    { intros ->. discriminate Hreq. }
    destruct (front_end_requests_reach w n content req Hreq) as [-> Hw].
    split; [exact Hne|]. rewrite Hw.
    destruct (writable _ w); split; try discriminate; auto.
  - intros Hne Hblank Hw. split.
    + unfold UI.writeContent. now rewrite trim_empty_blank, Hblank.
    + change (Int (Z.of_nat n + 1)) with (js_add (Int (Z.of_nat n)) (Int 1))
        in *.
      rewrite (writeContent_string (Int (Z.of_nat n))
                 [("content", JStr content)] content w eq_refl Hne).
      rewrite Hw, (toWellFormed_id _ (blank_wf _ Hblank)). fields.
      apply lookup_insert_eq.
Qed.

Lemma content_guard_of_front_end_and_server_witness :
  (status_of (fst (server (Request "POST" "/api/books/0/content" None
                              (Doc (JObj [("content", JStr "X")])))
                          three_books)) = Some 200
   \/ status_of (fst (server (Request "POST" "/api/books/0/content" None
                                 (Doc (JObj [("content", JStr "X")])))
                             three_books)) = Some 500)
  /\ UI.writeContent 0 " " = None.
Proof.
  destruct (content_guard_of_front_end_and_server 0 "X" three_books)
    as [Hsent _].
  destruct (content_guard_of_front_end_and_server 0 " " three_books)
    as [_ Hblank].
  split.
  - apply (Hsent (Request "POST" "/api/books/0/content" None
                          (Doc (JObj [("content", JStr "X")])))).
    reflexivity.
  - apply Hblank; [discriminate|reflexivity|vm_compute; reflexivity].
Defined.

(** ** When [book.json] cannot be written or read *)

(** X15. When [book.json] cannot be written, a delete and an update that
    pass the bounds check answer 500 and change neither store: the
    collection on disk is the old one and no blob is removed; the failure
    is printed on the console. *)
Theorem failed_save_changes_nothing (z : Z) (data : json) (w : world) :
  in_range z (collection w) ->
  json_ro w = true ->
  (deleteBook (Int z) w
   = (Ok (failure 500 "删除失败"), add_console ("写入书籍数据失败:", EACCES) w))
  /\ (validateBookData data = Ok [] ->
      updateBook (Int z) (Doc data) w
      = (Ok (failure 500 "更新失败"),
         add_console ("写入书籍数据失败:", EACCES) w))
  /\ stores (add_console ("写入书籍数据失败:", EACCES) w) = stores w.
Proof.
  intros Hin Hro.
  pose proof (stored_after_read _ _ (in_range_stored _ _ Hin)) as Har.
  split; [|split].
  - rewrite deleteBook_unfold, (bounds_in _ _ Hin).
    destruct (splice (Int z) 1 (collection w)). cbv zeta.
    now rewrite Hro, Har.
  - intros Hv. rewrite (updateBook_valid _ _ _ Hv), (bounds_in _ _ Hin).
    now rewrite Hro, Har.
  - reflexivity.
Qed.

Lemma failed_save_changes_nothing_witness :
  deleteBook (Int 0) readonly_json
  = (Ok (failure 500 "删除失败"),
     add_console ("写入书籍数据失败:", EACCES) readonly_json)
  /\ updateBook (Int 0) (Doc bookB) readonly_json
     = (Ok (failure 500 "更新失败"),
        add_console ("写入书籍数据失败:", EACCES) readonly_json).
Proof.
  destruct (failed_save_changes_nothing 0 bookB readonly_json) as (Hd & Hu & _).
  - unfold in_range. simpl. lia.
  - reflexivity.
  - split; [exact Hd|]. apply Hu. reflexivity.
Defined.

(** X23. When [book.json] is missing or does not parse, a create that
    passes validation writes a collection that holds the new record
    alone: whatever text the file held is replaced, and the new record
    gets ordinal 1. *)
Theorem create_replaces_unreadable_collection (data : json) (w : world) :
  book_json w = None \/ book_json w = Some Garbled ->
  validateBookData data = Ok [] ->
  json_ro w = false ->
  book_json (snd (createBook (Doc data) w)) = Some (Doc [data])
  /\ (writable "book_1.txt" w = true ->
      book_dir (snd (createBook (Doc data) w)) !! "book_1.txt"
      = Some (File "This is book NO.1")).
Proof.
  intros Hb Hv Hro. rewrite (createBook_valid _ _ Hv). cbv zeta. rewrite Hro.
  assert (Hc : collection w = [])
    by (unfold collection; destruct Hb as [-> | ->]; reflexivity).
  rewrite Hc.
  change (bookFilePath (Int (Z.of_nat (S (length (@nil json))))))
    with "book_1.txt".
  change (placeholder (S (length (@nil json)))) with "This is book NO.1".
  split.
  - destruct (writable "book_1.txt" w); reflexivity.
  - intros ->. fields. apply lookup_insert_eq.
Qed.

Lemma create_replaces_unreadable_collection_witness :
  book_json (snd (createBook (Doc bookA)
                             (World (Some Garbled) false ∅ false [])))
  = Some (Doc [bookA]).
Proof.
  apply (create_replaces_unreadable_collection
           bookA (World (Some Garbled) false ∅ false []));
    [right; reflexivity|reflexivity|reflexivity].
Defined.
